(** * driverkit, Debian builder: kernel artifact resolution and script synthesis

    A shallow embedding of [pkg/driverbuilder/builder/debian.go].  The Go
    standard-library pieces the builder relies on (strings, fmt, regexp,
    text/template, net/http) are modelled in their own modules; the builder
    itself is generic in the regexp engine and in the network, and is also
    run on a concrete engine for the worked scenarios. *)

From Stdlib Require Import String Ascii List ZArith Lia Bool Arith DecimalString.
Import ListNotations.
Local Open Scope string_scope.
Local Open Scope list_scope.

Set Implicit Arguments.
Set Warnings "-register-all".

(** ** Go values: errors, results, panics *)

(** A Go [error] value.  [Errorf] is an error built by [fmt.Errorf] in this
    package; [LibError] is an error handed back by a library or by another
    package (transport failure, template failure, ...). *)
Inductive error : Type :=
| Errorf (msg : string)
| LibError (origin msg : string).

(** Outcome of a call returning [(T, error)]: a value, an error, or a
    run-time panic unwinding the stack. *)
Inductive outcome (A : Type) : Type :=
| Ok (a : A)
| Err (e : error)
| Panic.
Arguments Ok {A} a.
Arguments Err {A} e.
Arguments Panic {A}.

(** A call that may issue HTTP GET requests: its outcome and the URLs it
    requested, in order. *)
Definition IO (A : Type) : Type := (outcome A * list string)%type.

Definition ret {A} (a : A) : IO A := (Ok a, []).
Definition throw {A} (e : error) : IO A := (Err e, []).
Definition panic {A} : IO A := (Panic, []).

Definition bind {A B} (m : IO A) (f : A -> IO B) : IO B :=
  match m with
  | (Ok a, t) => let (r, t') := f a in (r, t ++ t')
  | (Err e, t) => (Err e, t)
  | (Panic, t) => (Panic, t)
  end.

Notation "x <- m ;; k" := (bind m (fun x => k))
  (at level 61, m at next level, right associativity).

(** ** package strings, package fmt *)

Module Strings.

Definition dquote : string := String (ascii_of_nat 34) "".

Fixpoint strip_prefix (p s : list ascii) : option (list ascii) :=
  match p, s with
  | [], _ => Some s
  | a :: p', b :: s' => if Ascii.eqb a b then strip_prefix p' s' else None
  | _ :: _, [] => None
  end.

Definition HasSuffix (s suf : string) : bool :=
  match strip_prefix (rev (list_ascii_of_string suf)) (rev (list_ascii_of_string s)) with
  | Some _ => true
  | None => false
  end.

(** [strings.TrimSuffix]: [s] without the trailing [suf], or [s] itself
    when it does not end with [suf]. *)
Definition TrimSuffix (s suf : string) : string :=
  match strip_prefix (rev (list_ascii_of_string suf)) (rev (list_ascii_of_string s)) with
  | Some r => string_of_list_ascii (rev r)
  | None => s
  end.

Fixpoint contains_at (sub s : list ascii) : bool :=
  match strip_prefix sub s with
  | Some _ => true
  | None => match s with
            | [] => false
            | _ :: s' => contains_at sub s'
            end
  end.

(** [strings.Contains]. *)
Definition Contains (s sub : string) : bool :=
  contains_at (list_ascii_of_string sub) (list_ascii_of_string s).

(** [len(s) > 0] on a string. *)
Definition nonempty (s : string) : bool :=
  match s with EmptyString => false | _ => true end.

(** A letter, a digit or the underscore. *)
Definition is_alnum (c : ascii) : bool :=
  let n := nat_of_ascii c in
  ((48 <=? n)%nat && (n <=? 57)%nat || (65 <=? n)%nat && (n <=? 90)%nat
   || (97 <=? n)%nat && (n <=? 122)%nat || (n =? 95)%nat)%bool.

End Strings.

Module Fmt.

(** An operand of [Sprintf]. *)
Inductive arg : Type :=
| AInt (z : Z)
| AStr (s : string).

(** [%d] on an [int]. *)
Definition itoa (z : Z) : string := NilZero.string_of_int (Z.to_int z).

Definition show_arg (a : arg) : string :=
  match a with
  | AInt z => "int=" ++ itoa z
  | AStr s => "string=" ++ s
  end.

Fixpoint show_extra (args : list arg) : string :=
  match args with
  | [] => ""
  | [a] => show_arg a
  | a :: rest => show_arg a ++ ", " ++ show_extra rest
  end.

(** One verb applied to one operand; a verb of the wrong kind prints Go's
    bad-verb notation. *)
Definition verb (v : ascii) (a : arg) : string :=
  match a with
  | AInt z =>
      if (Ascii.eqb v "d" || Ascii.eqb v "v")%bool then itoa z
      else "%!" ++ String v ("(" ++ show_arg a ++ ")")
  | AStr s =>
      if (Ascii.eqb v "s" || Ascii.eqb v "v")%bool then s
      else "%!" ++ String v ("(" ++ show_arg a ++ ")")
  end.

(** [fmt.Sprintf] on the verbs [%s], [%d], [%v] and [%%], without flags or
    widths: operands are consumed left to right, a verb without operand
    prints [%!v(MISSING)], operands left over are reported at the end. *)
Fixpoint sprintf (f : string) (args : list arg) : string :=
  match f with
  | EmptyString =>
      match args with
      | [] => ""
      | _ => "%!(EXTRA " ++ show_extra args ++ ")"
      end
  | String c f' =>
      if Ascii.eqb c "%" then
        match f' with
        | EmptyString => "%!(NOVERB)" ++ sprintf f' args
        | String v f'' =>
            if Ascii.eqb v "%" then String "%" (sprintf f'' args)
            else match args with
                 | [] => "%!" ++ String v ("(MISSING)" ++ sprintf f'' [])
                 | a :: rest => verb v a ++ sprintf f'' rest
                 end
        end
      else String c (sprintf f' args)
  end.

End Fmt.

(** ** package text/template

    The fragment of the template language that the builder templates use:
    text, [{{ .Field }}], [{{ $var }}], [{{ if .Field }} ... {{ end }}] and
    [{{ range $var := .Field }} ... {{ end }}]. *)

Module Template.

Inductive value : Type :=
| VString (s : string)
| VBool (b : bool)
| VStrings (l : list string).

(** The data a template is executed on: its exported fields by name. *)
Definition data : Type := string -> option value.

Inductive expr : Type :=
| EField (name : string)
| EVar (name : string).

Inductive node : Type :=
| NText (s : string)
| NPrint (e : expr)
| NIf (e : expr) (body : list node)
| NRange (x : string) (e : expr) (body : list node).

(** *** Lexing: text and actions between the delimiters *)

Inductive token : Type :=
| TText (s : string)
| TAction (s : string).

Definition flush (acc : list ascii) (k : list token) : list token :=
  match acc with
  | [] => k
  | _ => TText (string_of_list_ascii (rev acc)) :: k
  end.

Fixpoint lex (inside : bool) (acc : list ascii) (s : string) : option (list token) :=
  match s with
  | EmptyString => if inside then None else Some (flush acc [])
  | String c s' =>
      if inside then
        match s' with
        | String c' s'' =>
            if (Ascii.eqb c "}" && Ascii.eqb c' "}")%bool
            then option_map (cons (TAction (string_of_list_ascii (rev acc)))) (lex false [] s'')
            else lex true (c :: acc) s'
        | EmptyString => None
        end
      else
        match s' with
        | String c' s'' =>
            if (Ascii.eqb c "{" && Ascii.eqb c' "{")%bool
            then option_map (flush acc) (lex true [] s'')
            else lex false (c :: acc) s'
        | EmptyString => lex false (c :: acc) s'
        end
  end.

(** *** Actions *)

Fixpoint words_aux (cur : list ascii) (s : string) : list string :=
  let push k := match cur with
                | [] => k
                | _ => string_of_list_ascii (rev cur) :: k
                end in
  match s with
  | EmptyString => push []
  | String c s' =>
      if (Ascii.eqb c " " || Ascii.eqb c (ascii_of_nat 9) || Ascii.eqb c (ascii_of_nat 10))%bool
      then push (words_aux [] s')
      else words_aux (c :: cur) s'
  end.

Definition words (s : string) : list string := words_aux [] s.

Fixpoint ident (s : string) : bool :=
  match s with
  | EmptyString => true
  | String c s' => (Strings.is_alnum c && ident s')%bool
  end.

Definition parse_expr (w : string) : option expr :=
  match w with
  | String "." name => if (Strings.nonempty name && ident name)%bool then Some (EField name) else None
  | String "$" name => if ident name then Some (EVar name) else None
  | _ => None
  end.

Inductive action : Type :=
| AEnd
| APrint (e : expr)
| AIf (e : expr)
| ARange (x : string) (e : expr).

Definition parse_action (s : string) : option action :=
  match words s with
  | ["end"] => Some AEnd
  | [w] => option_map APrint (parse_expr w)
  | ["if"; w] => option_map AIf (parse_expr w)
  | ["range"; String "$" x; ":="; w] =>
      if ident x then option_map (ARange x) (parse_expr w) else None
  | _ => None
  end.

(** *** Parsing: a stack of open blocks *)

Inductive opener : Type :=
| OIf (e : expr)
| ORange (x : string) (e : expr).

Definition close (o : opener) (body : list node) : node :=
  match o with
  | OIf e => NIf e body
  | ORange x e => NRange x e body
  end.

Fixpoint build (ts : list token) (cur : list node) (stack : list (opener * list node))
  : option (list node) :=
  match ts with
  | [] => match stack with
          | [] => Some (rev cur)
          | _ :: _ => None
          end
  | TText s :: ts' => build ts' (NText s :: cur) stack
  | TAction a :: ts' =>
      match parse_action a with
      | None => None
      | Some (APrint e) => build ts' (NPrint e :: cur) stack
      | Some (AIf e) => build ts' [] ((OIf e, cur) :: stack)
      | Some (ARange x e) => build ts' [] ((ORange x e, cur) :: stack)
      | Some AEnd =>
          match stack with
          | [] => None
          | (o, outer) :: stack' => build ts' (close o (rev cur) :: outer) stack'
          end
      end
  end.

(** [Template.Parse]: the parsed tree, or an error. *)
Definition Parse (text : string) : outcome (list node) :=
  match lex false [] text with
  | None => Err (LibError "template" "unclosed action")
  | Some ts =>
      match build ts [] [] with
      | None => Err (LibError "template" "parse error")
      | Some ns => Ok ns
      end
  end.

(** *** Execution *)

Fixpoint join (l : list string) : string :=
  match l with
  | [] => ""
  | [s] => s
  | s :: rest => s ++ " " ++ join rest
  end.

Definition show (v : value) : string :=
  match v with
  | VString s => s
  | VBool true => "true"
  | VBool false => "false"
  | VStrings l => "[" ++ join l ++ "]"
  end.

Definition truth (v : value) : bool :=
  match v with
  | VString s => Strings.nonempty s
  | VBool b => b
  | VStrings l => match l with [] => false | _ => true end
  end.

Fixpoint lookup (x : string) (env : list (string * value)) : option value :=
  match env with
  | [] => None
  | (y, v) :: env' => if String.eqb x y then Some v else lookup x env'
  end.

(** Dot is the root data ([None]) or the current element of a range. *)
Definition eval (d : data) (dot : option value) (env : list (string * value)) (e : expr)
  : outcome value :=
  match e with
  | EField name =>
      match dot with
      | Some _ => Err (LibError "template" ("can't evaluate field " ++ name))
      | None => match d name with
                | Some v => Ok v
                | None => Err (LibError "template" ("can't evaluate field " ++ name))
                end
      end
  | EVar x =>
      match lookup x env with
      | Some v => Ok v
      | None => Err (LibError "template" ("undefined variable $" ++ x))
      end
  end.

(** Execution writes to the buffer as it goes: on an error the text
    written so far stays in the buffer. *)
Fixpoint exec (d : data) (dot : option value) (env : list (string * value)) (n : node)
  {struct n} : string * option error :=
  let run_list dot' env' :=
    fix run (ns : list node) : string * option error :=
      match ns with
      | [] => ("", None)
      | m :: ns' =>
          match exec d dot' env' m with
          | (o, Some e) => (o, Some e)
          | (o, None) => let (o', e') := run ns' in ((o ++ o')%string, e')
          end
      end in
  match n with
  | NText s => (s, None)
  | NPrint e =>
      match eval d dot env e with
      | Ok v => (show v, None)
      | Err e => ("", Some e)
      | Panic => ("", Some (LibError "template" "panic"))
      end
  | NIf e body =>
      match eval d dot env e with
      | Ok v => if truth v then run_list dot env body else ("", None)
      | Err e => ("", Some e)
      | Panic => ("", Some (LibError "template" "panic"))
      end
  | NRange x e body =>
      match eval d dot env e with
      | Ok (VStrings l) =>
          (fix each (l : list string) : string * option error :=
             match l with
             | [] => ("", None)
             | s :: l' =>
                 match run_list (Some (VString s)) ((x, VString s) :: env) body with
                 | (o, Some e) => (o, Some e)
                 | (o, None) => let (o', e') := each l' in ((o ++ o')%string, e')
                 end
             end) l
      | Ok _ => ("", Some (LibError "template" "range can't iterate over value"))
      | Err e => ("", Some e)
      | Panic => ("", Some (LibError "template" "panic"))
      end
  end.

Fixpoint exec_list (d : data) (dot : option value) (env : list (string * value))
  (ns : list node) : string * option error :=
  match ns with
  | [] => ("", None)
  | m :: ns' =>
      match exec d dot env m with
      | (o, Some e) => (o, Some e)
      | (o, None) => let (o', e') := exec_list d dot env ns' in ((o ++ o')%string, e')
      end
  end.

(** [Template.Execute]: the buffer contents and the error, if any. *)
Definition Execute (t : list node) (d : data) : string * option error :=
  exec_list d None [] t.

(** What the builder uses of package text/template. *)
Class Engine : Type := {
  Template : Type;
  parse : string -> outcome Template;
  execute : Template -> data -> string * option error
}.

Definition fragment : Engine :=
  {| Template := list node; parse := Parse; execute := Execute |}.

End Template.

(** ** package regexp *)

Module Regexp.

(** What the builder uses of package regexp.  [MustCompile] panics on a
    pattern that does not parse ([None]); [FindStringSubmatch] gives the
    leftmost match and its groups, [nil] when there is none. *)
Class Engine : Type := {
  Regexp : Type;
  MustCompile : string -> option Regexp;
  FindStringSubmatch : Regexp -> string -> list string
}.

(** *** A backtracking engine for the syntax the builder's patterns use:
    literals, escaped punctuation, [.], classes of ranges, groups,
    alternation and the greedy [*], [+], [?]; a pattern with anything else
    is rejected.  Leftmost-first matching, as in Go. *)

Inductive regex : Type :=
| REmpty
| RChar (c : ascii)
| RAny
| RClass (ranges : list (ascii * ascii))
| RSeq (r1 r2 : regex)
| RAlt (r1 r2 : regex)
| RStar (r : regex)
| RPlus (r : regex)
| ROpt (r : regex)
| RGroup (i : nat) (r : regex).

Definition is_meta (c : ascii) : bool :=
  existsb (Ascii.eqb c) (list_ascii_of_string "^${}").

Definition is_rep (c : ascii) : bool :=
  existsb (Ascii.eqb c) (list_ascii_of_string "*+?").

Fixpoint parse_class (s : list ascii) (acc : list (ascii * ascii))
  : option (list (ascii * ascii) * list ascii) :=
  match s with
  | [] => None
  | c :: s' =>
      if Ascii.eqb c "]" then
        match acc with [] => None | _ => Some (rev acc, s') end
      else if (Ascii.eqb c "^" || Ascii.eqb c "\" || Ascii.eqb c "[")%bool then None
      else match s' with
           | d :: hi :: s'' =>
               if (Ascii.eqb d "-" && negb (Ascii.eqb hi "]"))%bool
               then if (nat_of_ascii c <=? nat_of_ascii hi)%nat
                    then parse_class s'' ((c, hi) :: acc)
                    else None
               else parse_class s' ((c, c) :: acc)
           | _ => parse_class s' ((c, c) :: acc)
           end
  end.

Definition postfix (r : regex) (s : list ascii) : option (regex * list ascii) :=
  match s with
  | c :: s' =>
      if is_rep c then
        match s' with
        | c' :: _ => if is_rep c' then None
                     else Some ((if Ascii.eqb c "*" then RStar r
                                 else if Ascii.eqb c "+" then RPlus r else ROpt r), s')
        | [] => Some ((if Ascii.eqb c "*" then RStar r
                       else if Ascii.eqb c "+" then RPlus r else ROpt r), s')
        end
      else Some (r, s)
  | [] => Some (r, s)
  end.

(** [g] is the number of groups opened so far. *)
Fixpoint parse_alt (fuel g : nat) (s : list ascii) {struct fuel}
  : option (regex * nat * list ascii) :=
  match fuel with
  | O => None
  | S f =>
      match parse_seq f g s with
      | Some (r1, g1, c :: s1) =>
          if Ascii.eqb c "|" then
            match parse_alt f g1 s1 with
            | Some (r2, g2, s2) => Some (RAlt r1 r2, g2, s2)
            | None => None
            end
          else Some (r1, g1, c :: s1)
      | other => other
      end
  end
with parse_seq (fuel g : nat) (s : list ascii) {struct fuel}
  : option (regex * nat * list ascii) :=
  match fuel with
  | O => None
  | S f =>
      match s with
      | [] => Some (REmpty, g, s)
      | c :: s' =>
          if (Ascii.eqb c "|" || Ascii.eqb c ")")%bool then Some (REmpty, g, s)
          else
            match parse_atom f g s with
            | Some (a, g1, s1) =>
                match postfix a s1 with
                | Some (r1, s2) =>
                    match parse_seq f g1 s2 with
                    | Some (REmpty, g2, s3) => Some (r1, g2, s3)
                    | Some (r2, g2, s3) => Some (RSeq r1 r2, g2, s3)
                    | None => None
                    end
                | None => None
                end
            | None => None
            end
      end
  end
with parse_atom (fuel g : nat) (s : list ascii) {struct fuel}
  : option (regex * nat * list ascii) :=
  match fuel with
  | O => None
  | S f =>
      match s with
      | [] => None
      | c :: s' =>
          if Ascii.eqb c "(" then
            match parse_alt f (S g) s' with
            | Some (r, g1, c' :: s1) =>
                if Ascii.eqb c' ")" then Some (RGroup (S g) r, g1, s1) else None
            | _ => None
            end
          else if Ascii.eqb c "[" then
            match parse_class s' [] with
            | Some (rs, s1) => Some (RClass rs, g, s1)
            | None => None
            end
          else if Ascii.eqb c "." then Some (RAny, g, s')
          else if Ascii.eqb c "\" then
            match s' with
            | e :: s1 => if Strings.is_alnum e then None else Some (RChar e, g, s1)
            | [] => None
            end
          else if (is_rep c || is_meta c)%bool then None
          else Some (RChar c, g, s')
      end
  end.

Definition compile (p : string) : option (regex * nat) :=
  let s := list_ascii_of_string p in
  match parse_alt (3 * List.length s + 3) 0 s with
  | Some (r, g, []) => Some (r, g)
  | _ => None
  end.

Definition captures : Type := list (nat * (nat * nat)).

Definition in_class (rs : list (ascii * ascii)) (a : ascii) : bool :=
  existsb (fun lh => (nat_of_ascii (fst lh) <=? nat_of_ascii a)%nat
                     && (nat_of_ascii a <=? nat_of_ascii (snd lh))%nat)%bool rs.

(** Backtracking match of [r] at position [pos] (the rest of the input
    is [s]), then the continuation [k]. *)
Fixpoint run (fuel : nat) (r : regex) (pos : nat) (s : list ascii) (caps : captures)
  (k : nat -> list ascii -> captures -> option captures) {struct fuel} : option captures :=
  match fuel with
  | O => None
  | S f =>
      match r with
      | REmpty => k pos s caps
      | RChar c =>
          match s with
          | a :: s' => if Ascii.eqb a c then k (S pos) s' caps else None
          | [] => None
          end
      | RAny =>
          match s with
          | a :: s' => if Ascii.eqb a (ascii_of_nat 10) then None else k (S pos) s' caps
          | [] => None
          end
      | RClass rs =>
          match s with
          | a :: s' => if in_class rs a then k (S pos) s' caps else None
          | [] => None
          end
      | RSeq r1 r2 =>
          run f r1 pos s caps (fun pos' s' caps' => run f r2 pos' s' caps' k)
      | RAlt r1 r2 =>
          match run f r1 pos s caps k with
          | Some c => Some c
          | None => run f r2 pos s caps k
          end
      | RStar r1 =>
          match run f r1 pos s caps
                  (fun pos' s' caps' =>
                     if (pos' =? pos)%nat then None else run f (RStar r1) pos' s' caps' k) with
          | Some c => Some c
          | None => k pos s caps
          end
      | RPlus r1 =>
          run f r1 pos s caps (fun pos' s' caps' => run f (RStar r1) pos' s' caps' k)
      | ROpt r1 =>
          match run f r1 pos s caps k with
          | Some c => Some c
          | None => k pos s caps
          end
      | RGroup i r1 =>
          run f r1 pos s caps (fun pos' s' caps' => k pos' s' ((i, (pos, pos')) :: caps'))
      end
  end.

Fixpoint size (r : regex) : nat :=
  match r with
  | REmpty | RChar _ | RAny | RClass _ => 1
  | RSeq r1 r2 | RAlt r1 r2 => S (size r1 + size r2)
  | RStar r1 | RPlus r1 | ROpt r1 | RGroup _ r1 => 2 + size r1
  end.

(** The leftmost start position at which [r] matches. *)
Fixpoint search (fuel : nat) (r : regex) (pos : nat) (s : list ascii) : option captures :=
  match run fuel r pos s [] (fun pos' _ caps => Some ((0, (pos, pos')) :: caps)) with
  | Some c => Some c
  | None => match s with
            | [] => None
            | _ :: s' => search fuel r (S pos) s'
            end
  end.

Fixpoint group (i : nat) (caps : captures) : option (nat * nat) :=
  match caps with
  | [] => None
  | (j, span) :: caps' => if (i =? j)%nat then Some span else group i caps'
  end.

Definition slice (s : list ascii) (span : option (nat * nat)) : string :=
  match span with
  | Some (b, e) => string_of_list_ascii (firstn (e - b) (skipn b s))
  | None => ""
  end.

Definition find (rg : regex * nat) (text : string) : list string :=
  let (r, g) := rg in
  let s := list_ascii_of_string text in
  match search ((size r + 2) * (List.length s + 2)) r 0 s with
  | None => []
  | Some caps => map (fun i => slice s (group i caps)) (seq 0 (S g))
  end.

Definition backtracking : Engine :=
  {| Regexp := regex * nat; MustCompile := compile; FindStringSubmatch := find |}.

End Regexp.

(** ** package net/http, package io/ioutil *)

Module Http.

(** A response: what [ioutil.ReadAll] gives on its body.  The status code
    is not looked at by the builder. *)
Record Response : Type := { Body : outcome string }.

End Http.

(** ** package kernelrelease, package builder: what debian.go is given *)

(** Modelled from the spec: package kernelrelease is outside the sources;
    section 3 of the spec gives the architecture as an enumeration (amd64,
    arm64, ...) with a canonical string form.  An architecture is kept by
    that string; the two that the spec names are the recognized ones. *)
Definition Architecture : Type := string.

Definition Architecture_String (a : Architecture) : string := a.

Definition ArchitectureAmd64 : Architecture := "amd64".
Definition ArchitectureArm64 : Architecture := "arm64".

Definition recognized (a : Architecture) : Prop :=
  a = ArchitectureAmd64 \/ a = ArchitectureArm64.

(** The fields of [kernelrelease.KernelRelease] that the builder reads. *)
Record KernelRelease : Type := {
  Version : Z;
  PatchLevel : Z;
  Sublevel : Z;
  FullExtraversion : string;
  Architecture_ : Architecture
}.

(** [kr.Architecture.String()]. *)
Definition arch (kr : KernelRelease) : string :=
  Architecture_String (Architecture_ kr).

(** The fields of [Config] and of its [Build] that the builder reads.
    [KernelUrls] is a slice: [None] is the nil slice. *)
Record Build_t : Type := {
  DriverVersion : string;
  ModuleFilePath : string;
  ProbeFilePath : string
}.

Record Config : Type := {
  DriverName : string;
  DownloadBaseURL : string;
  KernelUrls : option (list string);
  Build : Build_t
}.

(** What debian.go takes from outside itself: the network, and from the rest
    of package builder the helper [getResolvingURLs], the constants
    [DriverDirectory] and [ModuleFullPath] and the embedded template text. *)
Record Env : Type := {
  http_Get : string -> outcome Http.Response;
  getResolvingURLs : list string -> outcome (list string);
  DriverDirectory : string;
  ModuleFullPath : string;
  debianTemplate : string
}.

Record debianTemplateData : Type := {
  td_DriverBuildDir : string;
  td_ModuleDownloadURL : string;
  td_KernelDownloadURLS : list string;
  td_KernelLocalVersion : string;
  td_ModuleDriverName : string;
  td_ModuleFullPath : string;
  td_BuildModule : bool;
  td_BuildProbe : bool;
  td_LLVMVersion : string
}.

(** The exported fields of [debianTemplateData], as the template sees them. *)
Definition debianTemplateData_fields (td : debianTemplateData) : Template.data :=
  fun name =>
    if String.eqb name "DriverBuildDir" then Some (Template.VString (td_DriverBuildDir td))
    else if String.eqb name "ModuleDownloadURL" then Some (Template.VString (td_ModuleDownloadURL td))
    else if String.eqb name "KernelDownloadURLS" then Some (Template.VStrings (td_KernelDownloadURLS td))
    else if String.eqb name "KernelLocalVersion" then Some (Template.VString (td_KernelLocalVersion td))
    else if String.eqb name "ModuleDriverName" then Some (Template.VString (td_ModuleDriverName td))
    else if String.eqb name "ModuleFullPath" then Some (Template.VString (td_ModuleFullPath td))
    else if String.eqb name "BuildModule" then Some (Template.VBool (td_BuildModule td))
    else if String.eqb name "BuildProbe" then Some (Template.VBool (td_BuildProbe td))
    else if String.eqb name "LLVMVersion" then Some (Template.VString (td_LLVMVersion td))
    else None.

(** What a call of [Script] does: it returns its pair [(string, error)], or
    it panics. *)
Inductive returned : Type :=
| Returns (text : string) (err : option error)
| Panics.

(** ** debian.go *)

Section Debian.

Context {RE : Regexp.Engine} {TE : Template.Engine}.
Variable E : Env.

(** [http.Get]: the request is recorded in the trace. *)
Definition Get (url : string) : IO Http.Response := (http_Get E url, [url]).

Definition ReadAll (resp : Http.Response) : IO string := (Http.Body resp, []).

Definition mustCompile (p : string) : IO Regexp.Regexp :=
  match Regexp.MustCompile p with
  | Some r => ret r
  | None => panic
  end.

(** [l[i]]: an index out of range panics. *)
Definition index (l : list string) (i : nat) : IO string :=
  match nth_error l i with
  | Some s => ret s
  | None => panic
  end.

Definition debianLLVMVersionFromKernelRelease (kr : KernelRelease) : string :=
  match Version kr with
  | 5%Z => "12"
  | _ => "7"
  end.

(** The pattern and the base URL of the kbuild package. *)
Definition kbuild_rmatch : string :=
  "href=" ++ Strings.dquote ++ "(linux-kbuild-%d\.%d.*%s\.deb)" ++ Strings.dquote.

Definition kbuildBaseURL (kr : KernelRelease) : string :=
  if (Version kr =? 3)%Z
  then "http://mirrors.kernel.org/debian/pool/main/l/linux-tools/"
  else "http://mirrors.kernel.org/debian/pool/main/l/linux/".

Definition debianKbuildURLFromRelease (kr : KernelRelease) : IO string :=
  kbuildPattern <- mustCompile
    (Fmt.sprintf kbuild_rmatch
       [Fmt.AInt (Version kr); Fmt.AInt (PatchLevel kr); Fmt.AStr (arch kr)]) ;;
  let baseURL := kbuildBaseURL kr in
  resp <- Get baseURL ;;
  body <- ReadAll resp ;;
  let match_ := Regexp.FindStringSubmatch kbuildPattern body in
  if negb (List.length match_ =? 2)%nat then throw (Errorf "kbuild not found")
  else
    m1 <- index match_ 1 ;;
    ret (Fmt.sprintf "%s%s" [Fmt.AStr baseURL; Fmt.AStr m1]).

(** The locals of [fetchDebianHeadersURLFromRelease] that shape its
    patterns. *)
Definition extraVersionPartial (kr : KernelRelease) : string :=
  let partial := Strings.TrimSuffix (FullExtraversion kr) ("-" ++ arch kr) in
  if Strings.Contains (FullExtraversion kr) "-cloud"
  then Strings.TrimSuffix partial "-cloud"
  else partial.

Definition matchExtraGroup (kr : KernelRelease) : string :=
  if Strings.Contains (FullExtraversion kr) "-cloud"
  then "cloud-" ++ arch kr
  else arch kr.

Definition matchExtraGroupCommon : string := "common".

Definition rmatch : string :=
  "href=" ++ Strings.dquote
  ++ "(linux-headers-%d\.%d\.%d%s-(%s)_.*(%s|all)\.deb)" ++ Strings.dquote.

Definition rmatchNew : string :=
  "href=" ++ Strings.dquote
  ++ "(linux-headers-[0-9]+\.[0-9]+\.[0-9]+-[0-9]+-(%s)_%d\.%d\.%d%s_(%s|all)\.deb)"
  ++ Strings.dquote.

(** The older naming scheme, for the package group [grp]. *)
Definition fullregex_of (kr : KernelRelease) (grp : string) : string :=
  Fmt.sprintf rmatch
    [Fmt.AInt (Version kr); Fmt.AInt (PatchLevel kr); Fmt.AInt (Sublevel kr);
     Fmt.AStr (extraVersionPartial kr); Fmt.AStr grp; Fmt.AStr (arch kr)].

(** The newer naming scheme, for the package group [grp]. *)
Definition fullregexNew_of (kr : KernelRelease) (grp : string) : string :=
  Fmt.sprintf rmatchNew
    [Fmt.AStr grp; Fmt.AInt (Version kr); Fmt.AInt (PatchLevel kr);
     Fmt.AInt (Sublevel kr); Fmt.AStr (extraVersionPartial kr); Fmt.AStr (arch kr)].

Definition fetchDebianHeadersURLFromRelease (baseURL : string) (kr : KernelRelease)
  : IO (list string) :=
  (* download index *)
  resp <- Get baseURL ;;
  body <- ReadAll resp ;;
  (* look for kernel headers *)
  matches <-
    (pattern <- mustCompile (fullregex_of kr (matchExtraGroup kr)) ;;
     let matches := Regexp.FindStringSubmatch pattern body in
     if (List.length matches <? 1)%nat then
       pattern <- mustCompile (fullregexNew_of kr (matchExtraGroup kr)) ;;
       let matches := Regexp.FindStringSubmatch pattern body in
       if (List.length matches <? 1)%nat
       then throw (Errorf "kernel headers not found")
       else ret matches
     else ret matches) ;;
  (* look for kernel headers common *)
  matchesCommon <-
    (patternCommon <- mustCompile (fullregex_of kr matchExtraGroupCommon) ;;
     let matchesCommon := Regexp.FindStringSubmatch patternCommon body in
     if (List.length matchesCommon <? 1)%nat then
       patternCommon <- mustCompile (fullregexNew_of kr matchExtraGroupCommon) ;;
       let matchesCommon := Regexp.FindStringSubmatch patternCommon body in
       if (List.length matchesCommon <? 1)%nat
       then throw (Errorf "kernel headers common not found")
       else ret matchesCommon
     else ret matchesCommon) ;;
  m1 <- index matches 1 ;;
  c1 <- index matchesCommon 1 ;;
  ret [Fmt.sprintf "%s%s" [Fmt.AStr baseURL; Fmt.AStr m1];
       Fmt.sprintf "%s%s" [Fmt.AStr baseURL; Fmt.AStr c1]].

Definition baseURLS : list string :=
  ["http://security-cdn.debian.org/pool/main/l/linux/";
   "http://security-cdn.debian.org/pool/updates/main/l/linux/";
   "https://mirrors.edge.kernel.org/debian/pool/main/l/linux/"].

(** The loop of [debianHeadersURLFromRelease] over the mirrors still to
    try: the first mirror without error returns, an error moves on. *)
Fixpoint headersFrom (us : list string) (kr : KernelRelease) : IO (list string) :=
  match us with
  | [] => throw (Errorf "kernel headers not found")
  | u :: rest =>
      match fetchDebianHeadersURLFromRelease u kr with
      | (Ok urls, t) => (Ok urls, t)
      | (Err _, t) => let (r, t') := headersFrom rest kr in (r, t ++ t')
      | (Panic, t) => (Panic, t)
      end
  end.

Definition debianHeadersURLFromRelease (kr : KernelRelease) : IO (list string) :=
  headersFrom baseURLS kr.

Definition fetchDebianKernelURLs (kr : KernelRelease) : IO (list string) :=
  kbuildURL <- debianKbuildURLFromRelease kr ;;
  urls <- debianHeadersURLFromRelease kr ;;
  ret (urls ++ [kbuildURL]).

Definition templateData (c : Config) (kr : KernelRelease) (urls : list string)
  : debianTemplateData :=
  {| td_DriverBuildDir := DriverDirectory E;
     td_ModuleDownloadURL :=
       Fmt.sprintf "%s/%s.tar.gz"
         [Fmt.AStr (DownloadBaseURL c); Fmt.AStr (DriverVersion (Build c))];
     td_KernelDownloadURLS := urls;
     td_KernelLocalVersion := FullExtraversion kr;
     td_ModuleDriverName := DriverName c;
     td_ModuleFullPath := ModuleFullPath E;
     td_BuildModule := Strings.nonempty (ModuleFilePath (Build c));
     td_BuildProbe := Strings.nonempty (ProbeFilePath (Build c));
     td_LLVMVersion := debianLLVMVersionFromKernelRelease kr |}.

(** The URLs handed to the cardinality check: the overrides, or the
    resolved ones, filtered by [getResolvingURLs]. *)
Definition resolveURLs (c : Config) (kr : KernelRelease) : IO (list string) :=
  match KernelUrls c with
  | None =>
      kurls <- fetchDebianKernelURLs kr ;;
      (getResolvingURLs E kurls, [])
  | Some given => (getResolvingURLs E given, [])
  end.

Definition Script (c : Config) (kr : KernelRelease) : returned * list string :=
  let debTemplateStr := Fmt.sprintf (debianTemplate E) [Fmt.AStr (arch kr)] in
  match Template.parse debTemplateStr with
  | Panic => (Panics, [])
  | Err err => (Returns "" (Some err), [])
  | Ok parsed =>
      match resolveURLs c kr with
      | (Panic, t) => (Panics, t)
      | (Err err, t) => (Returns "" (Some err), t)
      | (Ok urls, t) =>
          if (List.length urls <? 3)%nat
          then (Returns "" (Some (Errorf "specific kernel headers not found")), t)
          else
            let td := templateData c kr urls in
            match Template.execute parsed (debianTemplateData_fields td) with
            | (_, Some err) => (Returns "" (Some err), t)
            | (buf, None) => (Returns buf None, t)
            end
      end
  end.

End Debian.

(** ** The embedded template and a concrete environment *)

(** Modelled from the spec: [templates/debian.sh], which debian.go embeds,
    is not among the sources.  The text follows the script template that is
    among them ([yum_sh] below): its preamble and its two conditional
    sections are kept as they are; the kernel download is the loop over
    [KernelDownloadURLS] that sections 4.4 and 6 of the spec describe
    (download and unpack every resolved URL, then normalize the headers into
    one path), and the one [%s] verb receives the architecture that [Script]
    formats the template with. *)
Definition debian_sh : string :=
"#!/bin/bash
set -xeuo pipefail

rm -Rf {{ .DriverBuildDir }}
mkdir {{ .DriverBuildDir }}
rm -Rf /tmp/module-download
mkdir -p /tmp/module-download

curl --silent -SL {{ .ModuleDownloadURL }} | tar -xzf - -C /tmp/module-download
mv /tmp/module-download/*/driver/* {{ .DriverBuildDir }}

cp /driverkit/module-Makefile {{ .DriverBuildDir }}/Makefile
bash /driverkit/fill-driver-config.sh {{ .DriverBuildDir }}

# Fetch the kernel
rm -Rf /tmp/kernel-download
mkdir /tmp/kernel-download
cd /tmp/kernel-download
{{ range $url := .KernelDownloadURLS }}
curl --silent -o kernel.deb -SL {{ $url }}
ar x kernel.deb
tar -xf data.tar.xz
{{ end }}

rm -Rf /tmp/kernel
mkdir -p /tmp/kernel
mv usr/src/linux-headers-*-%s/* /tmp/kernel

{{ if .BuildModule }}
# Build the module
cd {{ .DriverBuildDir }}
make KERNELDIR=/tmp/kernel
mv {{ .ModuleDriverName }}.ko {{ .ModuleFullPath }}
strip -g {{ .ModuleFullPath }}
# Print results
modinfo {{ .ModuleFullPath }}
{{ end }}

{{ if .BuildProbe }}
# Build the eBPF probe
cd {{ .DriverBuildDir }}/bpf
make LLC=/usr/bin/llc CLANG=/usr/bin/clang CC=/usr/bin/gcc KERNELDIR=/tmp/kernel
ls -l probe.o
{{ end }}".

(** A network serving the given pages; any other URL fails in transport. *)
Fixpoint serve (pages : list (string * string)) (url : string) : outcome Http.Response :=
  match pages with
  | [] => Err (LibError "http" ("Get " ++ url ++ ": no such host"))
  | (u, body) :: pages' =>
      if String.eqb url u then Ok {| Http.Body := Ok body |} else serve pages' url
  end.

(** Modelled from the spec: [getResolvingURLs] is defined elsewhere in
    package builder; section 4.3 of the spec has it check each URL for
    reachability and give back the reachable ones as they are. *)
Definition getResolvingURLs_of (reachable : string -> bool) (urls : list string)
  : outcome (list string) :=
  Ok (filter reachable urls).

Definition env_of (pages : list (string * string)) (reachable : string -> bool) : Env :=
  {| http_Get := serve pages;
     getResolvingURLs := getResolvingURLs_of reachable;
     DriverDirectory := "/tmp/driver";
     ModuleFullPath := "/tmp/driver/module.ko";
     debianTemplate := debian_sh |}.

Definition anchor (file : string) : string :=
  "<a href=" ++ Strings.dquote ++ file ++ Strings.dquote ++ ">" ++ file ++ "</a>
".

(** The scenario of section 8 of the spec: kernel 5.10.0-8-amd64, a headers
    index on the first mirror and a kbuild index. *)
Definition kr_5_10 : KernelRelease :=
  {| Version := 5; PatchLevel := 10; Sublevel := 0;
     FullExtraversion := "-8-amd64"; Architecture_ := ArchitectureAmd64 |}.

Definition headers_index : string :=
  anchor "linux-headers-5.10.0-8-amd64_5.10.103-1_amd64.deb"
  ++ anchor "linux-headers-5.10.0-8-common_5.10.103-1_all.deb".

Definition kbuild_index : string :=
  anchor "linux-kbuild-5.10_5.10.103-1_amd64.deb".

Definition pages_5_10 : list (string * string) :=
  [("http://mirrors.kernel.org/debian/pool/main/l/linux/", kbuild_index);
   ("http://security-cdn.debian.org/pool/main/l/linux/", headers_index)].

Definition config_both : Config :=
  {| DriverName := "falco";
     DownloadBaseURL := "https://github.com/falcosecurity/libs/archive";
     KernelUrls := None;
     Build := {| DriverVersion := "master";
                 ModuleFilePath := "/tmp/out/falco.ko";
                 ProbeFilePath := "/tmp/out/probe.o" |} |}.

(** ** The naming-scheme rule, in the spec's words *)

Section Schemes.

Context {RE : Regexp.Engine}.

(** One role on one index body (section 4.3 of the spec): the older naming
    scheme is tried first, the newer one only when the older finds nothing;
    a body matching neither is an error naming the role. *)
Definition resolveRole (body older newer role : string) : IO (list string) :=
  po <- mustCompile older ;;
  match Regexp.FindStringSubmatch po body with
  | (_ :: _) as found => ret found
  | [] =>
      pn <- mustCompile newer ;;
      match Regexp.FindStringSubmatch pn body with
      | (_ :: _) as found => ret found
      | [] => throw (Errorf (role ++ " not found"))
      end
  end.

(** [file] is the package that the role of naming group [grp] resolves to
    on the index that mirror [u] serves. *)
Definition role_file (E : Env) (kr : KernelRelease) (u grp role file : string) : Prop :=
  exists resp body found,
    http_Get E u = Ok resp /\ Http.Body resp = Ok body
    /\ resolveRole body (fullregex_of kr grp) (fullregexNew_of kr grp) role = (Ok found, [])
    /\ nth_error found 1 = Some file.

End Schemes.

(** ** The rendered script, section by section *)

(** The download of one kernel package, as the loop of [debian_sh] prints
    it. *)
Fixpoint download_loop (urls : list string) : string :=
  match urls with
  | [] => ""
  | url :: rest =>
      "
curl --silent -o kernel.deb -SL " ++ url ++ "
ar x kernel.deb
tar -xf data.tar.xz
" ++ download_loop rest
  end.

(** The source and kernel-header acquisition that opens every script. *)
Definition preamble (td : debianTemplateData) (archs : string) : string :=
"#!/bin/bash
set -xeuo pipefail

rm -Rf " ++ td_DriverBuildDir td ++ "
mkdir " ++ td_DriverBuildDir td ++ "
rm -Rf /tmp/module-download
mkdir -p /tmp/module-download

curl --silent -SL " ++ td_ModuleDownloadURL td ++ " | tar -xzf - -C /tmp/module-download
mv /tmp/module-download/*/driver/* " ++ td_DriverBuildDir td ++ "

cp /driverkit/module-Makefile " ++ td_DriverBuildDir td ++ "/Makefile
bash /driverkit/fill-driver-config.sh " ++ td_DriverBuildDir td ++ "

# Fetch the kernel
rm -Rf /tmp/kernel-download
mkdir /tmp/kernel-download
cd /tmp/kernel-download
" ++ download_loop (td_KernelDownloadURLS td) ++ "

rm -Rf /tmp/kernel
mkdir -p /tmp/kernel
mv usr/src/linux-headers-*-" ++ archs ++ "/* /tmp/kernel

".

Definition module_section (td : debianTemplateData) : string :=
"
# Build the module
cd " ++ td_DriverBuildDir td ++ "
make KERNELDIR=/tmp/kernel
mv " ++ td_ModuleDriverName td ++ ".ko " ++ td_ModuleFullPath td ++ "
strip -g " ++ td_ModuleFullPath td ++ "
# Print results
modinfo " ++ td_ModuleFullPath td ++ "
".

Definition probe_section (td : debianTemplateData) : string :=
"
# Build the eBPF probe
cd " ++ td_DriverBuildDir td ++ "/bpf
make LLC=/usr/bin/llc CLANG=/usr/bin/clang CC=/usr/bin/gcc KERNELDIR=/tmp/kernel
ls -l probe.o
".

Definition section_gap : string := "

".

(** The script [debian_sh] renders to: the preamble, then each build
    section when its toggle is set. *)
Definition rendered (td : debianTemplateData) (archs : string) : string :=
  preamble td archs
  ++ (if td_BuildModule td then module_section td else "")
  ++ section_gap
  ++ (if td_BuildProbe td then probe_section td else "").

(** ** Further scenarios *)

(** The script template that is among the sources, the one that downloads
    kernel-devel with yum.  It reads the field [KernelPackage], which
    [debianTemplateData] does not have. *)
Definition yum_sh : string :=
"#!/bin/bash
set -xeuo pipefail

rm -Rf {{ .DriverBuildDir }}
mkdir {{ .DriverBuildDir }}
rm -Rf /tmp/module-download
mkdir -p /tmp/module-download

curl --silent -SL {{ .ModuleDownloadURL }} | tar -xzf - -C /tmp/module-download
mv /tmp/module-download/*/driver/* {{ .DriverBuildDir }}

cp /driverkit/module-Makefile {{ .DriverBuildDir }}/Makefile
bash /driverkit/fill-driver-config.sh {{ .DriverBuildDir }}

# Fetch the kernel
rm -Rf /tmp/kernel-download
mkdir /tmp/kernel-download
cd /tmp/kernel-download
yum install -y --downloadonly --downloaddir=/tmp/kernel-download kernel-devel-0:{{ .KernelPackage }}
rpm2cpio kernel-devel-{{ .KernelPackage }}.rpm | cpio --extract --make-directories

rm -Rf /tmp/kernel
mkdir -p /tmp/kernel
mv usr/src/kernels/*/* /tmp/kernel

{{ if .BuildModule }}
# Build the module
cd {{ .DriverBuildDir }}
make KERNELDIR=/tmp/kernel
mv {{ .ModuleDriverName }}.ko {{ .ModuleFullPath }}
strip -g {{ .ModuleFullPath }}
# Print results
modinfo {{ .ModuleFullPath }}
{{ end }}

{{ if .BuildProbe }}
# Build the eBPF probe
cd {{ .DriverBuildDir }}/bpf
make LLC=/usr/bin/llc CLANG=/usr/bin/clang CC=/usr/bin/gcc KERNELDIR=/tmp/kernel
ls -l probe.o
{{ end }}".

Definition mirrorA : string := "http://security-cdn.debian.org/pool/main/l/linux/".
Definition mirrorB : string := "http://security-cdn.debian.org/pool/updates/main/l/linux/".
Definition mirrorC : string := "https://mirrors.edge.kernel.org/debian/pool/main/l/linux/".
Definition kbuildPool : string := "http://mirrors.kernel.org/debian/pool/main/l/linux/".
Definition kbuildToolsPool : string := "http://mirrors.kernel.org/debian/pool/main/l/linux-tools/".

(** The first mirror lists the primary headers only, the second lists both
    header packages. *)
Definition pages_split : list (string * string) :=
  [(mirrorA, anchor "linux-headers-5.10.0-8-amd64_5.10.103-1_amd64.deb");
   (mirrorB, headers_index);
   (kbuildPool, kbuild_index)].

(** The headers are served, the kbuild pool is unreachable. *)
Definition pages_kbuild_down : list (string * string) :=
  [(mirrorA, headers_index)].

(** A release given by its package version: only the newer scheme finds
    its headers. *)
Definition kr_5_10_103 : KernelRelease :=
  {| Version := 5; PatchLevel := 10; Sublevel := 103;
     FullExtraversion := "-1"; Architecture_ := ArchitectureAmd64 |}.

Definition headers_index_12 : string :=
  anchor "linux-headers-5.10.0-12-amd64_5.10.103-1_amd64.deb"
  ++ anchor "linux-headers-5.10.0-12-common_5.10.103-1_all.deb".

(** A cloud kernel, and a release whose [-cloud] is followed by a second
    flavour tag. *)
Definition kr_cloud : KernelRelease :=
  {| Version := 4; PatchLevel := 19; Sublevel := 0;
     FullExtraversion := "-6-cloud-amd64"; Architecture_ := ArchitectureAmd64 |}.

Definition kr_cloud_rt : KernelRelease :=
  {| Version := 4; PatchLevel := 19; Sublevel := 0;
     FullExtraversion := "-6-cloud-rt-amd64"; Architecture_ := ArchitectureAmd64 |}.

(** A release whose extraversion holds an opening parenthesis: the header
    patterns built from it do not compile. *)
Definition kr_unbalanced : KernelRelease :=
  {| Version := 5; PatchLevel := 10; Sublevel := 0;
     FullExtraversion := "-8(-amd64"; Architecture_ := ArchitectureAmd64 |}.

(** A kernel of major version 3 and the pool its kbuild package is in. *)
Definition kr_3_16 : KernelRelease :=
  {| Version := 3; PatchLevel := 16; Sublevel := 0;
     FullExtraversion := "-4-amd64"; Architecture_ := ArchitectureAmd64 |}.

Definition pages_3_16 : list (string * string) :=
  [(kbuildToolsPool, anchor "linux-kbuild-3.16_3.16.7-ckt2-1_amd64.deb")].

(** Two override URLs, both reachable. *)
Definition config_two_overrides : Config :=
  {| DriverName := "falco";
     DownloadBaseURL := "https://github.com/falcosecurity/libs/archive";
     KernelUrls := Some ["http://example.org/headers.deb"; "http://example.org/common.deb"];
     Build := {| DriverVersion := "master";
                 ModuleFilePath := "/tmp/out/falco.ko";
                 ProbeFilePath := "" |} |}.

Definition env_yum_template : Env :=
  {| http_Get := serve pages_5_10;
     getResolvingURLs := getResolvingURLs_of (fun _ => true);
     DriverDirectory := "/tmp/driver";
     ModuleFullPath := "/tmp/driver/module.ko";
     debianTemplate := yum_sh |}.

(** ** The openSUSE template *)

(** The script template of the openSUSE builder: its leading comment, then
    the script proper. *)
Definition opensuse_header : string :=
"#!/bin/bash
# SPDX-License-Identifier: Apache-2.0
#
# Copyright (C) 2023 The Falco Authors.
#
#
# Licensed under the Apache License, Version 2.0 (the " ++ Strings.dquote ++ "License" ++ Strings.dquote ++ ");
# you may not use this file except in compliance with the License.
# You may obtain a copy of the License at
#
#     http://www.apache.org/licenses/LICENSE-2.0
#
# Unless required by applicable law or agreed to in writing, software
# distributed under the License is distributed on an " ++ Strings.dquote ++ "AS IS" ++ Strings.dquote ++ " BASIS,
# WITHOUT WARRANTIES OR CONDITIONS OF ANY KIND, either express or implied.
# See the License for the specific language governing permissions and
# limitations under the License.
#
# Simple script that desperately tries to load the kernel instrumentation by
# looking for it in a bunch of ways. Convenient when running Falco inside
# a container or in other weird environments.
#
".

Definition opensuse_sh : string :=
  opensuse_header ++
"set -xeuo pipefail

rm -Rf {{ .DriverBuildDir }}
mkdir {{ .DriverBuildDir }}
rm -Rf /tmp/module-download
mkdir -p /tmp/module-download

curl --silent -SL {{ .ModuleDownloadURL }} | tar -xzf - -C /tmp/module-download
mv /tmp/module-download/*/* {{ .DriverBuildDir }}

# Fetch the kernel
mkdir /tmp/kernel-download
cd /tmp/kernel-download
{{range $url := .KernelDownloadURLs}}
curl --silent -o kernel-devel.rpm -SL {{ $url }}
# cpio will warn *extremely verbose* when trying to duplicate over the same directory - redirect stderr to null
rpm2cpio kernel-devel.rpm | cpio --quiet --extract --make-directories 2> /dev/null
{{end}}
cd /tmp/kernel-download/usr/src
ls -alh /tmp/kernel-download/usr/src
sourcedir=" ++ Strings.dquote ++ "$(find . -type d -name " ++ Strings.dquote ++ "linux-*-obj" ++ Strings.dquote ++ " | head -n 1 | xargs readlink -f)/*/default" ++ Strings.dquote ++ "

cd {{ .DriverBuildDir }}
mkdir -p build && cd build
cmake -DUSE_BUNDLED_DEPS=On -DCREATE_TEST_TARGETS=Off -DBUILD_LIBSCAP_GVISOR=Off -DBUILD_LIBSCAP_MODERN_BPF=Off -DENABLE_DRIVERS_TESTS=Off -DDRIVER_NAME={{ .ModuleDriverName }} -DBUILD_BPF=On ..

{{ if .BuildModule }}
# Build the module
make CC=/usr/bin/gcc-{{ .GCCVersion }} KERNELDIR=$sourcedir driver
strip -g {{ .ModuleFullPath }}
# Print results
modinfo {{ .ModuleFullPath }}
{{ end }}

{{ if .BuildProbe }}
# Build the eBPF probe
make KERNELDIR=$sourcedir bpf
ls -l driver/bpf/probe.o
{{ end }}".

(** ** The scripts the two templates among the sources render to *)

(** One kernel package, as the loop of [opensuse_sh] prints it. *)
Fixpoint opensuse_download_loop (urls : list string) : string :=
  match urls with
  | [] => ""
  | url :: rest =>
      "
curl --silent -o kernel-devel.rpm -SL " ++ url ++ "
# cpio will warn *extremely verbose* when trying to duplicate over the same directory - redirect stderr to null
rpm2cpio kernel-devel.rpm | cpio --quiet --extract --make-directories 2> /dev/null
"
      ++ opensuse_download_loop rest
  end.

Definition opensuse_preamble (dir source : string) (urls : list string) (name : string)
  : string :=
  opensuse_header ++
  "set -xeuo pipefail

rm -Rf " ++ dir ++ "
mkdir " ++ dir ++ "
rm -Rf /tmp/module-download
mkdir -p /tmp/module-download

curl --silent -SL " ++ source ++ " | tar -xzf - -C /tmp/module-download
mv /tmp/module-download/*/* " ++ dir ++ "

# Fetch the kernel
mkdir /tmp/kernel-download
cd /tmp/kernel-download
"
  ++ opensuse_download_loop urls ++
  "
cd /tmp/kernel-download/usr/src
ls -alh /tmp/kernel-download/usr/src
sourcedir=" ++ Strings.dquote ++ "$(find . -type d -name " ++ Strings.dquote ++ "linux-*-obj" ++ Strings.dquote ++ " | head -n 1 | xargs readlink -f)/*/default" ++ Strings.dquote ++ "

cd " ++ dir ++ "
mkdir -p build && cd build
cmake -DUSE_BUNDLED_DEPS=On -DCREATE_TEST_TARGETS=Off -DBUILD_LIBSCAP_GVISOR=Off -DBUILD_LIBSCAP_MODERN_BPF=Off -DENABLE_DRIVERS_TESTS=Off -DDRIVER_NAME=" ++ name ++ " -DBUILD_BPF=On ..

".

Definition opensuse_module_section (gcc out : string) : string :=
  "
# Build the module
make CC=/usr/bin/gcc-" ++ gcc ++ " KERNELDIR=$sourcedir driver
strip -g " ++ out ++ "
# Print results
modinfo " ++ out ++ "
".

Definition opensuse_probe_section : string :=
  "
# Build the eBPF probe
make KERNELDIR=$sourcedir bpf
ls -l driver/bpf/probe.o
".

Definition opensuse_rendered (dir source : string) (urls : list string)
  (name gcc out : string) (buildModule buildProbe : bool) : string :=
  opensuse_preamble dir source urls name
  ++ (if buildModule then opensuse_module_section gcc out else "")
  ++ section_gap
  ++ (if buildProbe then opensuse_probe_section else "").

Definition yum_preamble (dir source pkg : string) : string :=
  "#!/bin/bash
set -xeuo pipefail

rm -Rf " ++ dir ++ "
mkdir " ++ dir ++ "
rm -Rf /tmp/module-download
mkdir -p /tmp/module-download

curl --silent -SL " ++ source ++ " | tar -xzf - -C /tmp/module-download
mv /tmp/module-download/*/driver/* " ++ dir ++ "

cp /driverkit/module-Makefile " ++ dir ++ "/Makefile
bash /driverkit/fill-driver-config.sh " ++ dir ++ "

# Fetch the kernel
rm -Rf /tmp/kernel-download
mkdir /tmp/kernel-download
cd /tmp/kernel-download
yum install -y --downloadonly --downloaddir=/tmp/kernel-download kernel-devel-0:" ++ pkg ++ "
rpm2cpio kernel-devel-" ++ pkg ++ ".rpm | cpio --extract --make-directories

rm -Rf /tmp/kernel
mkdir -p /tmp/kernel
mv usr/src/kernels/*/* /tmp/kernel

".

Definition yum_module_section (dir name out : string) : string :=
  "
# Build the module
cd " ++ dir ++ "
make KERNELDIR=/tmp/kernel
mv " ++ name ++ ".ko " ++ out ++ "
strip -g " ++ out ++ "
# Print results
modinfo " ++ out ++ "
".

Definition yum_probe_section (dir : string) : string :=
  "
# Build the eBPF probe
cd " ++ dir ++ "/bpf
make LLC=/usr/bin/llc CLANG=/usr/bin/clang CC=/usr/bin/gcc KERNELDIR=/tmp/kernel
ls -l probe.o
".

Definition yum_rendered (dir source pkg name out : string)
  (buildModule buildProbe : bool) : string :=
  yum_preamble dir source pkg
  ++ (if buildModule then yum_module_section dir name out else "")
  ++ section_gap
  ++ (if buildProbe then yum_probe_section dir else "").

(** ** Vocabulary of the statements *)

Section KbuildPool.

Context {RE : Regexp.Engine}.

(** The kbuild package of [kr] is resolved against [pool].  Once the
    pattern has compiled, [pool] is requested, once, and nothing else is;
    and the outcome is what the index that [pool] serves gives: its
    transport error, its read error, the file matched on it, placed under
    [pool], or "kbuild not found".  A pattern that does not compile panics
    before any request. *)
Definition kbuild_resolved_at (E : Env) (kr : KernelRelease) (pool : string) : Prop :=
  let pattern := Fmt.sprintf kbuild_rmatch
                   [Fmt.AInt (Version kr); Fmt.AInt (PatchLevel kr); Fmt.AStr (arch kr)] in
  (Regexp.MustCompile pattern = None ->
   debianKbuildURLFromRelease E kr = (Panic, []))
  /\ (forall p,
        Regexp.MustCompile pattern = Some p ->
        snd (debianKbuildURLFromRelease E kr) = [pool]
        /\ fst (debianKbuildURLFromRelease E kr)
           = match http_Get E pool with
             | Ok resp =>
                 match Http.Body resp with
                 | Ok body =>
                     match Regexp.FindStringSubmatch p body with
                     | [_; file] => Ok (pool ++ file)%string
                     | _ => Err (Errorf "kbuild not found")
                     end
                 | Err e => Err e
                 | Panic => Panic
                 end
             | Err e => Err e
             | Panic => Panic
             end).

End KbuildPool.

(** * Properties *)

(** ** Strings *)

Lemma append_nil_r (s : string) : (s ++ "")%string = s.
Proof. induction s; simpl; congruence. Qed.

Lemma append_assoc (a b c : string) : ((a ++ b) ++ c)%string = (a ++ (b ++ c))%string.
Proof. induction a; simpl; congruence. Qed.

Lemma list_ascii_of_string_app (a b : string) :
  list_ascii_of_string (a ++ b) = list_ascii_of_string a ++ list_ascii_of_string b.
Proof. induction a; simpl; congruence. Qed.

Lemma strip_prefix_app (p s : list ascii) : Strings.strip_prefix p (p ++ s) = Some s.
Proof.
  induction p as [|a p IH]; simpl; [reflexivity|].
  now rewrite Ascii.eqb_refl.
Qed.

(** [TrimSuffix] removes a suffix that is there ... *)
Lemma TrimSuffix_app (s suf : string) : Strings.TrimSuffix (s ++ suf) suf = s.
Proof.
  unfold Strings.TrimSuffix.
  rewrite list_ascii_of_string_app, rev_app_distr, strip_prefix_app, rev_involutive.
  apply string_of_list_ascii_of_string.
Qed.

(** ... and leaves a string without that suffix alone. *)
Lemma TrimSuffix_none (s suf : string) :
  Strings.HasSuffix s suf = false -> Strings.TrimSuffix s suf = s.
Proof.
  unfold Strings.HasSuffix, Strings.TrimSuffix.
  now destruct (Strings.strip_prefix _ _).
Qed.

Lemma sprintf_concat (a b : string) :
  Fmt.sprintf "%s%s" [Fmt.AStr a; Fmt.AStr b] = (a ++ b)%string.
Proof. simpl. now rewrite append_nil_r. Qed.

Ltac norm_string :=
  repeat (rewrite ?append_assoc, ?append_nil_r; cbn [String.append]).

(** ** Header resolution on one mirror *)

Section Resolution.

Context {RE : Regexp.Engine}.
Variable E : Env.

Ltac step_io :=
  cbn -[Fmt.sprintf nth_error String.append];
  match goal with
  | |- context [Regexp.MustCompile ?p] => destruct (Regexp.MustCompile p)
  | |- context [Regexp.FindStringSubmatch ?r ?b] =>
      destruct (Regexp.FindStringSubmatch r b) as [|? ?]
  | |- context [nth_error ?l ?i] => destruct (nth_error l i)
  end.

(** The two inlined blocks of [fetchDebianHeadersURLFromRelease] are two
    uses of the naming-scheme rule. *)
Lemma fetch_by_roles (base : string) (kr : KernelRelease) :
  fetchDebianHeadersURLFromRelease E base kr =
  (resp <- Get E base ;;
   body <- ReadAll resp ;;
   found <- resolveRole body (fullregex_of kr (matchExtraGroup kr))
              (fullregexNew_of kr (matchExtraGroup kr)) "kernel headers" ;;
   foundCommon <- resolveRole body (fullregex_of kr matchExtraGroupCommon)
                    (fullregexNew_of kr matchExtraGroupCommon) "kernel headers common" ;;
   h <- index found 1 ;;
   c <- index foundCommon 1 ;;
   ret [(base ++ h)%string; (base ++ c)%string]).
Proof.
  unfold fetchDebianHeadersURLFromRelease, resolveRole, Get, ReadAll, mustCompile, index.
  destruct (http_Get E base) as [resp| |]; [|reflexivity..].
  cbn [bind].
  destruct (Http.Body resp) as [body| |]; [|reflexivity..].
  generalize (fullregex_of kr (matchExtraGroup kr)) (fullregexNew_of kr (matchExtraGroup kr))
    (fullregex_of kr matchExtraGroupCommon) (fullregexNew_of kr matchExtraGroupCommon).
  intros o n oc nc.
  repeat step_io; cbn -[Fmt.sprintf nth_error String.append];
    rewrite ?sprintf_concat; reflexivity.
Qed.

Lemma resolveRole_trace (body older newer role : string) :
  snd (resolveRole body older newer role) = [].
Proof.
  unfold resolveRole, mustCompile.
  repeat step_io; reflexivity.
Qed.

(** One call requests its mirror, once, whatever comes of it. *)
Lemma fetch_trace (u : string) (kr : KernelRelease) :
  snd (fetchDebianHeadersURLFromRelease E u kr) = [u].
Proof.
  rewrite fetch_by_roles. unfold Get, ReadAll.
  destruct (http_Get E u) as [resp| |]; [|reflexivity..].
  cbn [bind].
  destruct (Http.Body resp) as [body| |]; [|reflexivity..].
  cbn [bind].
  pose proof (resolveRole_trace body (fullregex_of kr (matchExtraGroup kr))
                (fullregexNew_of kr (matchExtraGroup kr)) "kernel headers") as T1.
  pose proof (resolveRole_trace body (fullregex_of kr matchExtraGroupCommon)
                (fullregexNew_of kr matchExtraGroupCommon) "kernel headers common") as T2.
  destruct (resolveRole body _ _ "kernel headers") as [[found| |] t1];
    simpl in T1; subst t1; [|reflexivity..].
  cbn [bind].
  destruct (resolveRole body _ _ "kernel headers common") as [[fc| |] t2];
    simpl in T2; subst t2; [|reflexivity..].
  unfold index. cbn [bind].
  destruct (nth_error found 1); [|reflexivity].
  cbn [bind ret].
  destruct (nth_error fc 1); reflexivity.
Qed.

(** A successful call gives two URLs under its mirror: the primary
    headers package first, the common one second. *)
Lemma fetch_ok_shape (u : string) (kr : KernelRelease) (urls t : list string) :
  fetchDebianHeadersURLFromRelease E u kr = (Ok urls, t) ->
  exists h c,
    urls = [(u ++ h)%string; (u ++ c)%string]
    /\ role_file E kr u (matchExtraGroup kr) "kernel headers" h
    /\ role_file E kr u matchExtraGroupCommon "kernel headers common" c.
Proof.
  rewrite fetch_by_roles. unfold Get, ReadAll, role_file.
  destruct (http_Get E u) as [resp| |] eqn:Hget; [|discriminate..].
  cbn [bind].
  destruct (Http.Body resp) as [body| |] eqn:Hbody; [|discriminate..].
  cbn [bind].
  pose proof (resolveRole_trace body (fullregex_of kr (matchExtraGroup kr))
                (fullregexNew_of kr (matchExtraGroup kr)) "kernel headers") as T1.
  pose proof (resolveRole_trace body (fullregex_of kr matchExtraGroupCommon)
                (fullregexNew_of kr matchExtraGroupCommon) "kernel headers common") as T2.
  destruct (resolveRole body _ _ "kernel headers") as [[found| |] t1] eqn:H1;
    simpl in T1; subst t1; [|discriminate..].
  cbn [bind].
  destruct (resolveRole body _ _ "kernel headers common") as [[fc| |] t2] eqn:H2;
    simpl in T2; subst t2; [|discriminate..].
  unfold index. cbn [bind].
  destruct (nth_error found 1) as [h|] eqn:Hh; [|discriminate].
  cbn [bind ret].
  destruct (nth_error fc 1) as [c|] eqn:Hc; [|discriminate].
  cbn. intros H; injection H as <- _.
  exists h, c. split; [reflexivity|].
  split; [exists resp, body, found | exists resp, body, fc]; auto.
Qed.

(** The loop over mirrors: a success comes from one of them, and the
    trace lists the mirrors tried. *)
Lemma headersFrom_ok (us : list string) (kr : KernelRelease) (urls t : list string) :
  headersFrom E us kr = (Ok urls, t) ->
  exists u h c,
    In u us /\ urls = [(u ++ h)%string; (u ++ c)%string]
    /\ role_file E kr u (matchExtraGroup kr) "kernel headers" h
    /\ role_file E kr u matchExtraGroupCommon "kernel headers common" c.
Proof.
  revert t; induction us as [|u us IH]; intros t; simpl; [discriminate|].
  destruct (fetchDebianHeadersURLFromRelease E u kr) as [[got|e|] t1] eqn:Hf.
  - intros H; injection H as <- <-.
    destruct (fetch_ok_shape _ _ Hf) as (h & c & -> & Hh & Hc).
    exists u, h, c; auto.
  - destruct (headersFrom E us kr) as [r t2].
    intros H; injection H as -> _.
    destruct (IH _ eq_refl) as (u' & h & c & Hin & -> & Hh & Hc).
    exists u', h, c; auto.
  - discriminate.
Qed.

Lemma headersFrom_skip (pre : list string) (u : string) (post : list string)
  (kr : KernelRelease) (urls : list string) :
  (forall v, In v pre -> exists e, fst (fetchDebianHeadersURLFromRelease E v kr) = Err e) ->
  fst (fetchDebianHeadersURLFromRelease E u kr) = Ok urls ->
  headersFrom E (pre ++ u :: post) kr = (Ok urls, pre ++ [u]).
Proof.
  intros Hpre Hu. induction pre as [|v pre IH]; simpl.
  - pose proof (fetch_trace u kr) as T.
    destruct (fetchDebianHeadersURLFromRelease E u kr) as [r t]; simpl in *; subst.
    reflexivity.
  - destruct (Hpre v (or_introl eq_refl)) as [e He].
    pose proof (fetch_trace v kr) as T.
    destruct (fetchDebianHeadersURLFromRelease E v kr) as [r t]; simpl in *; subst.
    rewrite IH by (intros; apply Hpre; auto). reflexivity.
Qed.

Lemma headersFrom_exhausted (us : list string) (kr : KernelRelease) :
  (forall v, In v us -> exists e, fst (fetchDebianHeadersURLFromRelease E v kr) = Err e) ->
  headersFrom E us kr = (Err (Errorf "kernel headers not found"), us).
Proof.
  induction us as [|v us IH]; intros Hall; simpl; [reflexivity|].
  destruct (Hall v (or_introl eq_refl)) as [e He].
  pose proof (fetch_trace v kr) as T.
  destruct (fetchDebianHeadersURLFromRelease E v kr) as [r t]; simpl in *; subst.
  rewrite IH by (intros; apply Hall; auto). reflexivity.
Qed.

End Resolution.

(** ** Patterns and toolchain *)

Lemma fullregex_of_eq (kr : KernelRelease) (grp : string) :
  fullregex_of kr grp =
  ("href=" ++ Strings.dquote ++ "(linux-headers-"
   ++ Fmt.itoa (Version kr) ++ "\." ++ Fmt.itoa (PatchLevel kr) ++ "\."
   ++ Fmt.itoa (Sublevel kr) ++ extraVersionPartial kr
   ++ "-(" ++ grp ++ ")_.*(" ++ arch kr ++ "|all)\.deb)" ++ Strings.dquote)%string.
Proof.
  unfold fullregex_of, rmatch. cbn -[Fmt.itoa String.append extraVersionPartial arch].
  norm_string. reflexivity.
Qed.

Lemma fullregexNew_of_eq (kr : KernelRelease) (grp : string) :
  fullregexNew_of kr grp =
  ("href=" ++ Strings.dquote
   ++ "(linux-headers-[0-9]+\.[0-9]+\.[0-9]+-[0-9]+-(" ++ grp ++ ")_"
   ++ Fmt.itoa (Version kr) ++ "\." ++ Fmt.itoa (PatchLevel kr) ++ "\."
   ++ Fmt.itoa (Sublevel kr) ++ extraVersionPartial kr
   ++ "_(" ++ arch kr ++ "|all)\.deb)" ++ Strings.dquote)%string.
Proof.
  unfold fullregexNew_of, rmatchNew. cbn -[Fmt.itoa String.append extraVersionPartial arch].
  norm_string. reflexivity.
Qed.

(** C5. The LLVM version is a total function of the kernel major version:
    major version 5 selects "12", every other major version selects "7". *)
Theorem llvm_version_by_major (kr : KernelRelease) :
  (Version kr = 5%Z -> debianLLVMVersionFromKernelRelease kr = "12") /\
  (Version kr <> 5%Z -> debianLLVMVersionFromKernelRelease kr = "7").
Proof.
  unfold debianLLVMVersionFromKernelRelease. split; intros H.
  - now rewrite H.
  - destruct (Version kr) as [|p|p]; try reflexivity.
    do 3 (destruct p as [p|p|]; try reflexivity).
    contradiction H; reflexivity.
Qed.

Lemma llvm_version_by_major_witness :
  debianLLVMVersionFromKernelRelease kr_5_10 = "12"
  /\ debianLLVMVersionFromKernelRelease kr_3_16 = "7".
Proof.
  split.
  - apply (proj1 (llvm_version_by_major kr_5_10)). reflexivity.
  - apply (proj2 (llvm_version_by_major kr_3_16)). simpl. lia.
Defined.

(** C7.  The code tests for "-cloud" anywhere in the extraversion and then
    strips it only as a suffix.  On the release 4.19.0-6-cloud-rt-amd64 the
    test holds, the naming group becomes "cloud-amd64", and yet the version
    fragment of the patterns is "-6-cloud-rt", with "-cloud" still in it: the
    marker is in the pattern twice. *)
Lemma cloud_marker_not_stripped :
  Strings.Contains (FullExtraversion kr_cloud_rt) "-cloud" = true
  /\ extraVersionPartial kr_cloud_rt = "-6-cloud-rt"
  /\ Strings.Contains (extraVersionPartial kr_cloud_rt) "-cloud" = true
  /\ matchExtraGroup kr_cloud_rt = "cloud-amd64"
  /\ fullregex_of kr_cloud_rt (matchExtraGroup kr_cloud_rt) =
       ("href=" ++ Strings.dquote
        ++ "(linux-headers-4\.19\.0-6-cloud-rt-(cloud-amd64)_.*(amd64|all)\.deb)"
        ++ Strings.dquote)%string.
Proof. repeat split; reflexivity. Qed.

(** ** The resolvers *)

Section Resolvers.

Context {RE : Regexp.Engine}.
Variable E : Env.

Lemma kbuild_at_base (kr : KernelRelease) :
  kbuild_resolved_at E kr (kbuildBaseURL kr).
Proof.
  unfold kbuild_resolved_at, debianKbuildURLFromRelease, mustCompile, Get, ReadAll, index.
  set (base := kbuildBaseURL kr).
  split.
  - intros Hp. rewrite Hp. reflexivity.
  - intros p Hp. rewrite Hp. cbn [bind ret].
    destruct (http_Get E base) as [resp| |]; [|split; reflexivity..].
    cbn [bind].
    destruct (Http.Body resp) as [body| |]; [|split; reflexivity..].
    cbn [bind].
    destruct (Regexp.FindStringSubmatch p body) as [|m0 [|m1 [|m2 l]]]; cbn;
      try (split; reflexivity).
    now rewrite append_nil_r.
Qed.

(** C6. A release of major version 3 has its kbuild package resolved
    against the linux-tools pool, every other major version against the
    default linux pool: that pool is requested, it alone, and the outcome
    is the one its index gives, the URL found being the matched file under
    that pool. *)
Theorem kbuild_pool_by_major (kr : KernelRelease) :
  (Version kr = 3%Z ->
     kbuild_resolved_at E kr "http://mirrors.kernel.org/debian/pool/main/l/linux-tools/")
  /\ (Version kr <> 3%Z ->
        kbuild_resolved_at E kr "http://mirrors.kernel.org/debian/pool/main/l/linux/").
Proof.
  pose proof (kbuild_at_base kr) as H. unfold kbuildBaseURL in H.
  split; intros Hv.
  - rewrite Hv in H. exact H.
  - destruct (Z.eqb_spec (Version kr) 3); [contradiction|exact H].
Qed.

(** C10. Whenever resolution without overrides succeeds, it returns
    exactly three URLs in the order primary headers, common headers,
    kbuild: the package of the primary role and the package of the common
    role on a mirror of the list, then, last, the URL that the kbuild
    resolution found. *)
Theorem kernel_urls_are_three_in_order (kr : KernelRelease) (urls t : list string) :
  fetchDebianKernelURLs E kr = (Ok urls, t) ->
  exists u primary common kbuild,
    urls = [(u ++ primary)%string; (u ++ common)%string; kbuild]
    /\ In u baseURLS
    /\ role_file E kr u (matchExtraGroup kr) "kernel headers" primary
    /\ role_file E kr u matchExtraGroupCommon "kernel headers common" common
    /\ fst (debianKbuildURLFromRelease E kr) = Ok kbuild.
Proof.
  unfold fetchDebianKernelURLs.
  destruct (debianKbuildURLFromRelease E kr) as [[k| |] t1]; [|discriminate..].
  cbn [bind].
  destruct (debianHeadersURLFromRelease E kr) as [[hs| |] t2] eqn:Hh; [|discriminate..].
  cbn. intros H; injection H as <- _.
  destruct (headersFrom_ok _ _ _ Hh) as (u & h & c & Hin & -> & Hp & Hc).
  exists u, h, c, k. auto.
Qed.


End Resolvers.

(** ** Fallback over naming schemes and over mirrors *)

Section Fallback.

Context {RE : Regexp.Engine}.
Variable E : Env.

(** C3. For every index body and either header role, the older naming
    scheme is tried first and the newer one only when the older finds
    nothing: a body that the older pattern matches resolves by it, whatever
    the newer pattern is; a body that only the newer pattern matches
    resolves by that one; a body that neither matches fails with the
    not-found error that names the role.  The two header roles of
    [fetchDebianHeadersURLFromRelease] are resolved by this rule, under
    the names "kernel headers" and "kernel headers common", and the error
    of a role is the error of the call. *)
Theorem naming_scheme_fallback (body older newer role : string) :
  (forall po,
     Regexp.MustCompile older = Some po ->
     Regexp.FindStringSubmatch po body <> [] ->
     resolveRole body older newer role = (Ok (Regexp.FindStringSubmatch po body), []))
  /\ (forall po pn,
        Regexp.MustCompile older = Some po ->
        Regexp.FindStringSubmatch po body = [] ->
        Regexp.MustCompile newer = Some pn ->
        Regexp.FindStringSubmatch pn body <> [] ->
        resolveRole body older newer role = (Ok (Regexp.FindStringSubmatch pn body), []))
  /\ (forall po pn,
        Regexp.MustCompile older = Some po ->
        Regexp.FindStringSubmatch po body = [] ->
        Regexp.MustCompile newer = Some pn ->
        Regexp.FindStringSubmatch pn body = [] ->
        resolveRole body older newer role = (Err (Errorf (role ++ " not found")), []))
  /\ (forall base kr,
        fetchDebianHeadersURLFromRelease E base kr =
        (resp <- Get E base ;;
         index_body <- ReadAll resp ;;
         found <- resolveRole index_body (fullregex_of kr (matchExtraGroup kr))
                    (fullregexNew_of kr (matchExtraGroup kr)) "kernel headers" ;;
         foundCommon <- resolveRole index_body (fullregex_of kr matchExtraGroupCommon)
                          (fullregexNew_of kr matchExtraGroupCommon)
                          "kernel headers common" ;;
         h <- index found 1 ;;
         c <- index foundCommon 1 ;;
         ret [(base ++ h)%string; (base ++ c)%string]))
  /\ (forall base kr resp index_body e,
        http_Get E base = Ok resp -> Http.Body resp = Ok index_body ->
        resolveRole index_body (fullregex_of kr (matchExtraGroup kr))
          (fullregexNew_of kr (matchExtraGroup kr)) "kernel headers" = (Err e, []) ->
        fetchDebianHeadersURLFromRelease E base kr = (Err e, [base]))
  /\ (forall base kr resp index_body found e,
        http_Get E base = Ok resp -> Http.Body resp = Ok index_body ->
        resolveRole index_body (fullregex_of kr (matchExtraGroup kr))
          (fullregexNew_of kr (matchExtraGroup kr)) "kernel headers" = (Ok found, []) ->
        resolveRole index_body (fullregex_of kr matchExtraGroupCommon)
          (fullregexNew_of kr matchExtraGroupCommon) "kernel headers common"
        = (Err e, []) ->
        fetchDebianHeadersURLFromRelease E base kr = (Err e, [base])).
Proof.
  split; [|split; [|split; [|split; [|split]]]].
  - intros po Hpo Hm. unfold resolveRole, mustCompile. rewrite Hpo. cbn [bind ret].
    destruct (Regexp.FindStringSubmatch po body); [contradiction|reflexivity].
  - intros po pn Hpo Hm Hpn Hn. unfold resolveRole, mustCompile.
    rewrite Hpo. cbn [bind ret]. rewrite Hm, Hpn. cbn [bind ret].
    destruct (Regexp.FindStringSubmatch pn body); [contradiction|reflexivity].
  - intros po pn Hpo Hm Hpn Hn. unfold resolveRole, mustCompile.
    rewrite Hpo. cbn [bind ret]. rewrite Hm, Hpn. cbn [bind ret].
    now rewrite Hn.
  - intros base kr. apply fetch_by_roles.
  - intros base kr resp index_body e Hget Hbody Hp.
    rewrite fetch_by_roles. unfold Get, ReadAll.
    rewrite Hget. cbn [bind]. rewrite Hbody. cbn [bind].
    rewrite Hp. reflexivity.
  - intros base kr resp index_body found e Hget Hbody Hp Hc.
    rewrite fetch_by_roles. unfold Get, ReadAll.
    rewrite Hget. cbn [bind]. rewrite Hbody. cbn [bind].
    rewrite Hp. cbn [bind]. rewrite Hc. reflexivity.
Qed.

(** C2, as the code has it.  The two header roles are resolved together
    over the fixed list of three mirrors, in its order: the first mirror
    whose call returns without error supplies both header URLs and no later
    mirror is requested; an error on an earlier mirror, a transport failure
    included, moves on to the next without being reported; when every
    mirror fails the error is "kernel headers not found".  The kbuild role
    has one base URL and no fallback: the error of its request is returned
    as it is. *)
Theorem mirror_fallback_for_headers (kr : KernelRelease) :
  baseURLS = ["http://security-cdn.debian.org/pool/main/l/linux/";
              "http://security-cdn.debian.org/pool/updates/main/l/linux/";
              "https://mirrors.edge.kernel.org/debian/pool/main/l/linux/"]
  /\ (forall pre u post urls,
        baseURLS = pre ++ u :: post ->
        (forall v, In v pre ->
           exists e, fst (fetchDebianHeadersURLFromRelease E v kr) = Err e) ->
        fst (fetchDebianHeadersURLFromRelease E u kr) = Ok urls ->
        debianHeadersURLFromRelease E kr = (Ok urls, pre ++ [u]))
  /\ ((forall v, In v baseURLS ->
         exists e, fst (fetchDebianHeadersURLFromRelease E v kr) = Err e) ->
      debianHeadersURLFromRelease E kr = (Err (Errorf "kernel headers not found"), baseURLS))
  /\ (forall v e,
        http_Get E v = Err e ->
        fetchDebianHeadersURLFromRelease E v kr = (Err e, [v]))
  /\ (forall p e,
        Regexp.MustCompile
          (Fmt.sprintf kbuild_rmatch
             [Fmt.AInt (Version kr); Fmt.AInt (PatchLevel kr); Fmt.AStr (arch kr)]) = Some p ->
        http_Get E (kbuildBaseURL kr) = Err e ->
        debianKbuildURLFromRelease E kr = (Err e, [kbuildBaseURL kr])).
Proof.
  split; [reflexivity|split; [|split; [|split]]].
  - intros pre u post urls Hsplit Hpre Hu.
    unfold debianHeadersURLFromRelease. rewrite Hsplit.
    now apply headersFrom_skip.
  - intros Hall. now apply headersFrom_exhausted.
  - intros v e Hget. unfold fetchDebianHeadersURLFromRelease, Get.
    now rewrite Hget.
  - intros p e Hp Hget. unfold debianKbuildURLFromRelease, mustCompile, Get.
    rewrite Hp. cbn [bind ret]. now rewrite Hget.
Qed.

End Fallback.

Lemma naming_scheme_fallback_witness :
  exists found,
    resolveRole (RE := Regexp.backtracking) headers_index_12
      (fullregex_of kr_5_10_103 (matchExtraGroup kr_5_10_103))
      (fullregexNew_of kr_5_10_103 (matchExtraGroup kr_5_10_103)) "kernel headers"
    = (Ok found, [])
    /\ nth_error found 1 = Some "linux-headers-5.10.0-12-amd64_5.10.103-1_amd64.deb".
Proof.
  eexists. split.
  - eapply (proj1 (proj2 (naming_scheme_fallback (RE := Regexp.backtracking)
                            (env_of [] (fun _ => true)) _ _ _ _))).
    + vm_compute. reflexivity.
    + vm_compute. reflexivity.
    + vm_compute. reflexivity.
    + vm_compute. discriminate.
  - vm_compute. reflexivity.
Defined.

Lemma mirror_fallback_for_headers_witness :
  debianHeadersURLFromRelease (RE := Regexp.backtracking)
    (env_of pages_split (fun _ => true)) kr_5_10
  = (Ok [(mirrorB ++ "linux-headers-5.10.0-8-amd64_5.10.103-1_amd64.deb")%string;
         (mirrorB ++ "linux-headers-5.10.0-8-common_5.10.103-1_all.deb")%string],
     [mirrorA; mirrorB]).
Proof.
  apply (proj1 (proj2 (mirror_fallback_for_headers (RE := Regexp.backtracking)
                         (env_of pages_split (fun _ => true)) kr_5_10))
           [mirrorA] mirrorB [mirrorC]).
  - reflexivity.
  - intros v [<-|[]]. eexists. vm_compute. reflexivity.
  - vm_compute. reflexivity.
Defined.

(** C2 as stated fails.  The first mirror yields a match for the primary
    headers role, yet that role is satisfied from the second mirror, the
    first one lacking the common headers; and a transport failure on the
    kbuild mirror is the error returned, no other mirror being tried. *)
Lemma mirror_fallback_not_per_role :
  role_file (RE := Regexp.backtracking) (env_of pages_split (fun _ => true)) kr_5_10
    mirrorA (matchExtraGroup kr_5_10) "kernel headers"
    "linux-headers-5.10.0-8-amd64_5.10.103-1_amd64.deb"
  /\ debianHeadersURLFromRelease (RE := Regexp.backtracking)
       (env_of pages_split (fun _ => true)) kr_5_10
     = (Ok [(mirrorB ++ "linux-headers-5.10.0-8-amd64_5.10.103-1_amd64.deb")%string;
            (mirrorB ++ "linux-headers-5.10.0-8-common_5.10.103-1_all.deb")%string],
        [mirrorA; mirrorB])
  /\ debianKbuildURLFromRelease (RE := Regexp.backtracking)
       (env_of pages_kbuild_down (fun _ => true)) kr_5_10
     = (Err (LibError "http"
               "Get http://mirrors.kernel.org/debian/pool/main/l/linux/: no such host"),
        ["http://mirrors.kernel.org/debian/pool/main/l/linux/"]).
Proof.
  split; [|split].
  - unfold role_file. do 3 eexists.
    split; [vm_compute; reflexivity|].
    split; [vm_compute; reflexivity|].
    split; vm_compute; reflexivity.
  - vm_compute. reflexivity.
  - vm_compute. reflexivity.
Qed.

Lemma kbuild_pool_by_major_witness :
  kbuild_resolved_at (RE := Regexp.backtracking)
    (env_of pages_3_16 (fun _ => true)) kr_3_16
    "http://mirrors.kernel.org/debian/pool/main/l/linux-tools/"
  /\ kbuild_resolved_at (RE := Regexp.backtracking)
       (env_of pages_5_10 (fun _ => true)) kr_5_10
       "http://mirrors.kernel.org/debian/pool/main/l/linux/".
Proof.
  split.
  - apply (proj1 (kbuild_pool_by_major (RE := Regexp.backtracking)
                    (env_of pages_3_16 (fun _ => true)) kr_3_16)).
    reflexivity.
  - apply (proj2 (kbuild_pool_by_major (RE := Regexp.backtracking)
                    (env_of pages_5_10 (fun _ => true)) kr_5_10)).
    simpl. lia.
Defined.

Lemma kernel_urls_are_three_in_order_witness :
  exists u primary common kbuild,
    [(mirrorA ++ "linux-headers-5.10.0-8-amd64_5.10.103-1_amd64.deb")%string;
     (mirrorA ++ "linux-headers-5.10.0-8-common_5.10.103-1_all.deb")%string;
     (kbuildPool ++ "linux-kbuild-5.10_5.10.103-1_amd64.deb")%string]
    = [(u ++ primary)%string; (u ++ common)%string; kbuild]
    /\ In u baseURLS
    /\ role_file (RE := Regexp.backtracking) (env_of pages_5_10 (fun _ => true)) kr_5_10
         u (matchExtraGroup kr_5_10) "kernel headers" primary
    /\ role_file (RE := Regexp.backtracking) (env_of pages_5_10 (fun _ => true)) kr_5_10
         u matchExtraGroupCommon "kernel headers common" common
    /\ fst (debianKbuildURLFromRelease (RE := Regexp.backtracking)
              (env_of pages_5_10 (fun _ => true)) kr_5_10) = Ok kbuild.
Proof.
  apply (kernel_urls_are_three_in_order (RE := Regexp.backtracking)
           (env_of pages_5_10 (fun _ => true)) kr_5_10
           (t := [kbuildPool; mirrorA])).
  vm_compute. reflexivity.
Defined.


(** ** Script *)

Section Synthesis.

Context {RE : Regexp.Engine} {TE : Template.Engine}.
Variable E : Env.

Lemma resolveURLs_overrides (c : Config) (kr : KernelRelease) (given : list string) :
  KernelUrls c = Some given ->
  resolveURLs E c kr = (getResolvingURLs E given, []).
Proof. intros H. unfold resolveURLs. now rewrite H. Qed.

Lemma resolveURLs_mirrors (c : Config) (kr : KernelRelease) (kurls t : list string) :
  KernelUrls c = None ->
  fetchDebianKernelURLs E kr = (Ok kurls, t) ->
  resolveURLs E c kr = (getResolvingURLs E kurls, t).
Proof.
  intros H Hf. unfold resolveURLs. rewrite H, Hf. cbn [bind].
  now rewrite app_nil_r.
Qed.

Lemma Script_short (c : Config) (kr : KernelRelease) parsed (urls t : list string) :
  Template.parse (Fmt.sprintf (debianTemplate E) [Fmt.AStr (arch kr)]) = Ok parsed ->
  resolveURLs E c kr = (Ok urls, t) ->
  List.length urls < 3 ->
  Script E c kr = (Returns "" (Some (Errorf "specific kernel headers not found")), t).
Proof.
  intros Hp Hr Hl. unfold Script. rewrite Hp, Hr.
  now rewrite (proj2 (Nat.ltb_lt _ _) Hl).
Qed.

(** C1. Whether the URLs are the caller's overrides or come from the
    mirrors, when [getResolvingURLs] leaves fewer than 3 of them [Script]
    fails with the error of the cardinality check, "specific kernel headers
    not found", and an empty text; a [Script] that succeeds had at least 3
    of them. *)
Theorem script_needs_three_urls (c : Config) (kr : KernelRelease) parsed :
  Template.parse (Fmt.sprintf (debianTemplate E) [Fmt.AStr (arch kr)]) = Ok parsed ->
  (forall given urls,
     KernelUrls c = Some given ->
     getResolvingURLs E given = Ok urls ->
     List.length urls < 3 ->
     Script E c kr = (Returns "" (Some (Errorf "specific kernel headers not found")), []))
  /\ (forall kurls t urls,
        KernelUrls c = None ->
        fetchDebianKernelURLs E kr = (Ok kurls, t) ->
        getResolvingURLs E kurls = Ok urls ->
        List.length urls < 3 ->
        Script E c kr = (Returns "" (Some (Errorf "specific kernel headers not found")), t))
  /\ (forall text t,
        Script E c kr = (Returns text None, t) ->
        exists asked urls,
          getResolvingURLs E asked = Ok urls /\ 3 <= List.length urls
          /\ (KernelUrls c = Some asked
              \/ KernelUrls c = None /\ fst (fetchDebianKernelURLs E kr) = Ok asked)).
Proof.
  intros Hp. split; [|split].
  - intros given urls Hk Hg Hl. apply Script_short with parsed urls; auto.
    rewrite (@resolveURLs_overrides c kr given Hk). now rewrite Hg.
  - intros kurls t urls Hk Hf Hg Hl. apply Script_short with parsed urls; auto.
    rewrite (@resolveURLs_mirrors c kr kurls t Hk Hf). now rewrite Hg.
  - intros text t. unfold Script. rewrite Hp. unfold resolveURLs.
    destruct (KernelUrls c) as [given|] eqn:Hk.
    + destruct (getResolvingURLs E given) as [urls| |] eqn:Hg; try discriminate.
      destruct (List.length urls <? 3)%nat eqn:Hl; [discriminate|].
      intros _. exists given, urls. apply Nat.ltb_ge in Hl. auto.
    + destruct (fetchDebianKernelURLs E kr) as [[kurls| |] t1] eqn:Hf;
        cbn [bind]; try discriminate.
      destruct (getResolvingURLs E kurls) as [urls| |] eqn:Hg; try discriminate.
      destruct (List.length urls <? 3)%nat eqn:Hl; [discriminate|].
      intros _. exists kurls, urls. apply Nat.ltb_ge in Hl. auto.
Qed.

(** X13. Whenever a stage of [Script] returns an error (parsing the
    template, fetching the URLs from the mirrors, filtering them, the
    cardinality check, executing the template), [Script] returns that error
    with the empty text, also when the execution had already written part
    of the script to its buffer; [Script] never returns an error next to a
    text. *)
Theorem script_fails_wholesale (c : Config) (kr : KernelRelease) :
  (forall text e t, Script E c kr = (Returns text (Some e), t) -> text = "")
  /\ (forall e,
        Template.parse (Fmt.sprintf (debianTemplate E) [Fmt.AStr (arch kr)]) = Err e ->
        Script E c kr = (Returns "" (Some e), []))
  /\ (forall parsed e t,
        Template.parse (Fmt.sprintf (debianTemplate E) [Fmt.AStr (arch kr)]) = Ok parsed ->
        KernelUrls c = None ->
        fetchDebianKernelURLs E kr = (Err e, t) ->
        Script E c kr = (Returns "" (Some e), t))
  /\ (forall parsed e t,
        Template.parse (Fmt.sprintf (debianTemplate E) [Fmt.AStr (arch kr)]) = Ok parsed ->
        resolveURLs E c kr = (Err e, t) ->
        Script E c kr = (Returns "" (Some e), t))
  /\ (forall parsed urls t,
        Template.parse (Fmt.sprintf (debianTemplate E) [Fmt.AStr (arch kr)]) = Ok parsed ->
        resolveURLs E c kr = (Ok urls, t) ->
        List.length urls < 3 ->
        Script E c kr = (Returns "" (Some (Errorf "specific kernel headers not found")), t))
  /\ (forall parsed urls t buf e,
        Template.parse (Fmt.sprintf (debianTemplate E) [Fmt.AStr (arch kr)]) = Ok parsed ->
        resolveURLs E c kr = (Ok urls, t) ->
        3 <= List.length urls ->
        Template.execute parsed (debianTemplateData_fields (templateData E c kr urls))
        = (buf, Some e) ->
        Script E c kr = (Returns "" (Some e), t)).
Proof.
  split; [|split; [|split; [|split; [|split]]]].
  - intros text e t. unfold Script.
    destruct (Template.parse _) as [parsed| |]; try (intros H; injection H; auto; fail);
      try discriminate.
    destruct (resolveURLs E c kr) as [[urls| |] t1];
      try (intros H; injection H; auto; fail); try discriminate.
    destruct (List.length urls <? 3)%nat; [intros H; injection H; auto|].
    destruct (Template.execute _ _) as [buf [e'|]];
      [intros H; injection H; auto | discriminate].
  - intros e Hp. unfold Script. now rewrite Hp.
  - intros parsed e t Hp Hk Hf. unfold Script, resolveURLs. now rewrite Hp, Hk, Hf.
  - intros parsed e t Hp Hr. unfold Script. now rewrite Hp, Hr.
  - intros parsed urls t Hp Hr Hl. now apply Script_short with parsed urls.
  - intros parsed urls t buf e Hp Hr Hl Hx. unfold Script. rewrite Hp, Hr.
    rewrite (proj2 (Nat.ltb_ge _ _) Hl). now rewrite Hx.
Qed.

End Synthesis.

Lemma script_needs_three_urls_witness :
  Script (RE := Regexp.backtracking) (TE := Template.fragment)
    (env_of [] (fun _ => true)) config_two_overrides kr_5_10
  = (Returns "" (Some (Errorf "specific kernel headers not found")), []).
Proof.
  destruct (Template.Parse (Fmt.sprintf debian_sh [Fmt.AStr (arch kr_5_10)]))
    as [parsed| |] eqn:Hp; [|vm_compute in Hp; discriminate..].
  apply (proj1 (@script_needs_three_urls Regexp.backtracking Template.fragment
                  (env_of [] (fun _ => true)) config_two_overrides kr_5_10 parsed Hp)
           ["http://example.org/headers.deb"; "http://example.org/common.deb"]
           ["http://example.org/headers.deb"; "http://example.org/common.deb"]).
  - reflexivity.
  - reflexivity.
  - simpl. lia.
Defined.

Lemma script_fails_wholesale_witness :
  Script (RE := Regexp.backtracking) (TE := Template.fragment)
    env_yum_template config_both kr_5_10
  = (Returns "" (Some (LibError "template" "can't evaluate field KernelPackage")),
     [kbuildPool; mirrorA]).
Proof.
  eapply (proj2 (proj2 (proj2 (proj2 (proj2
            (script_fails_wholesale (RE := Regexp.backtracking)
               (TE := Template.fragment) env_yum_template config_both kr_5_10)))))).
  - vm_compute. reflexivity.
  - vm_compute. reflexivity.
  - simpl. lia.
  - vm_compute. reflexivity.
Defined.

Section PatternPanic.

Context {RE : Regexp.Engine} {TE : Template.Engine}.
Variable E : Env.


End PatternPanic.


(** C8.  The extraversion goes into the header patterns as it is, and the
    patterns are compiled with [regexp.MustCompile].  On the release
    5.10.0-8(-amd64, the kbuild package found and the first mirror serving
    its index, the pattern has an unclosed group and does not compile: the
    resolution fails by a panic, and [Script] returns neither an error nor
    an empty text. *)
Lemma script_panics_on_uncompilable_pattern :
  fullregex_of kr_unbalanced (matchExtraGroup kr_unbalanced)
  = ("href=" ++ Strings.dquote
     ++ "(linux-headers-5\.10\.0-8(-(amd64)_.*(amd64|all)\.deb)"
     ++ Strings.dquote)%string
  /\ Regexp.MustCompile (Engine := Regexp.backtracking)
       (fullregex_of kr_unbalanced (matchExtraGroup kr_unbalanced)) = None
  /\ Script (RE := Regexp.backtracking) (TE := Template.fragment)
       (env_of pages_5_10 (fun _ => true)) config_both kr_unbalanced
     = (Panics, [kbuildPool; mirrorA]).
Proof.
  split; [reflexivity|]. split; vm_compute; reflexivity.
Qed.

(** ** The rendered script *)

(** The template parses for either recognized architecture, and its
    execution on any data is the preamble followed by the sections whose
    toggles are set. *)
Lemma execute_debian_sh (a : Architecture) :
  recognized a ->
  exists parsed,
    Template.Parse (Fmt.sprintf debian_sh [Fmt.AStr (Architecture_String a)]) = Ok parsed
    /\ forall td,
         Template.Execute parsed (debianTemplateData_fields td)
         = (rendered td (Architecture_String a), None).
Proof.
  intros [->| ->].
  all: eexists; split; [vm_compute; reflexivity|].
  all: intros td; unfold Template.Execute; cbn -[String.append].
  all: match goal with
       | |- context [?f (td_KernelDownloadURLS ?d)] =>
           assert (Hloop : forall l, f l = (download_loop l, None))
       end.
  1,3: induction l as [|u l IH]; [reflexivity|]; cbn -[String.append];
       cbn -[String.append] in IH; rewrite IH; cbn [download_loop]; norm_string;
       reflexivity.
  all: rewrite Hloop; clear Hloop.
  all: unfold rendered, preamble, module_section, probe_section, section_gap.
  all: match goal with
       | |- context [td_BuildModule ?d] =>
           destruct (td_BuildModule d), (td_BuildProbe d)
       end; cbn -[String.append]; norm_string; reflexivity.
Qed.

Section Rendering.

Context {RE : Regexp.Engine}.
Variable E : Env.
Hypothesis embedded : debianTemplate E = debian_sh.

(** C4. With the template [debian_sh] and a recognized architecture, the
    script that [Script] returns is the source and kernel-header
    acquisition preamble, followed by the module-build section exactly when
    a module output path is configured, and by the probe-build section
    exactly when a probe output path is configured; with neither configured
    it is the preamble alone. *)
Theorem script_sections_follow_outputs (c : Config) (kr : KernelRelease) :
  recognized (Architecture_ kr) ->
  (forall urls t,
     resolveURLs E c kr = (Ok urls, t) ->
     3 <= List.length urls ->
     let td := templateData E c kr urls in
     Script (TE := Template.fragment) E c kr
     = (Returns
          (preamble td (arch kr)
           ++ (if Strings.nonempty (ModuleFilePath (Build c)) then module_section td else "")
           ++ section_gap
           ++ (if Strings.nonempty (ProbeFilePath (Build c)) then probe_section td else ""))
          None, t))
  /\ (forall text t,
        Script (TE := Template.fragment) E c kr = (Returns text None, t) ->
        exists urls,
          let td := templateData E c kr urls in
          fst (resolveURLs E c kr) = Ok urls
          /\ text
             = (preamble td (arch kr)
                ++ (if Strings.nonempty (ModuleFilePath (Build c))
                    then module_section td else "")
                ++ section_gap
                ++ (if Strings.nonempty (ProbeFilePath (Build c))
                    then probe_section td else ""))%string
          /\ (ModuleFilePath (Build c) = "" -> ProbeFilePath (Build c) = "" ->
              text = (preamble td (arch kr) ++ section_gap)%string)).
Proof.
  intros Harch.
  destruct (execute_debian_sh Harch) as (parsed & Hp & Hx).
  split.
  - intros urls t Hr Hl td. unfold Script. cbn [Template.parse Template.fragment].
    rewrite embedded. unfold arch. rewrite Hp, Hr.
    rewrite (proj2 (Nat.ltb_ge _ _) Hl).
    cbn [Template.execute Template.fragment]. rewrite Hx. reflexivity.
  - intros text t. unfold Script. cbn [Template.parse Template.fragment].
    rewrite embedded. unfold arch. rewrite Hp.
    destruct (resolveURLs E c kr) as [[urls| |] t1]; try discriminate.
    destruct (List.length urls <? 3)%nat; [discriminate|].
    cbn [Template.execute Template.fragment]. rewrite Hx.
    intros H; injection H as <- _.
    exists urls. cbn zeta. split; [reflexivity|]. split; [reflexivity|].
    intros Hm Hb. unfold rendered. cbn [templateData td_BuildModule td_BuildProbe].
    rewrite Hm, Hb. reflexivity.
Qed.

End Rendering.

Lemma script_sections_follow_outputs_witness :
  exists text,
    Script (RE := Regexp.backtracking) (TE := Template.fragment)
      (env_of pages_5_10 (fun _ => true)) config_both kr_5_10
    = (Returns text None, [kbuildPool; mirrorA])
    /\ Strings.Contains text "# Build the module" = true
    /\ Strings.Contains text "# Build the eBPF probe" = true.
Proof.
  eexists. split.
  - apply (proj1 (@script_sections_follow_outputs Regexp.backtracking
                    (env_of pages_5_10 (fun _ => true)) eq_refl config_both kr_5_10
                    (or_introl eq_refl))
             [(mirrorA ++ "linux-headers-5.10.0-8-amd64_5.10.103-1_amd64.deb")%string;
              (mirrorA ++ "linux-headers-5.10.0-8-common_5.10.103-1_all.deb")%string;
              (kbuildPool ++ "linux-kbuild-5.10_5.10.103-1_amd64.deb")%string]).
    + vm_compute. reflexivity.
    + simpl. lia.
  - split; vm_compute; reflexivity.
Defined.

(** ** The scenario of the spec, end to end *)

Example scenario_5_10_resolves :
  fetchDebianKernelURLs (RE := Regexp.backtracking)
    (env_of pages_5_10 (fun _ => true)) kr_5_10
  = (Ok [(mirrorA ++ "linux-headers-5.10.0-8-amd64_5.10.103-1_amd64.deb")%string;
         (mirrorA ++ "linux-headers-5.10.0-8-common_5.10.103-1_all.deb")%string;
         (kbuildPool ++ "linux-kbuild-5.10_5.10.103-1_amd64.deb")%string],
     [kbuildPool; mirrorA]).
Proof. vm_compute. reflexivity. Qed.

Example scenario_5_10_script_fetches_all :
  exists text,
    fst (Script (RE := Regexp.backtracking) (TE := Template.fragment)
           (env_of pages_5_10 (fun _ => true)) config_both kr_5_10)
    = Returns text None
    /\ Strings.Contains text
         (mirrorA ++ "linux-headers-5.10.0-8-amd64_5.10.103-1_amd64.deb") = true
    /\ Strings.Contains text
         (mirrorA ++ "linux-headers-5.10.0-8-common_5.10.103-1_all.deb") = true
    /\ Strings.Contains text
         (kbuildPool ++ "linux-kbuild-5.10_5.10.103-1_amd64.deb") = true.
Proof. eexists. repeat split; vm_compute; reflexivity. Qed.

(** ** Checks of the library models *)

Example sprintf_verbs :
  Fmt.sprintf "linux-kbuild-%d\.%d.*%s\.deb" [Fmt.AInt 5; Fmt.AInt 10; Fmt.AStr "amd64"]
  = "linux-kbuild-5\.10.*amd64\.deb".
Proof. reflexivity. Qed.

Example sprintf_extra_operand :
  Fmt.sprintf "no verb" [Fmt.AStr "amd64"] = "no verb%!(EXTRA string=amd64)".
Proof. reflexivity. Qed.

Example trim_suffix_present : Strings.TrimSuffix "-8-amd64" "-amd64" = "-8".
Proof. reflexivity. Qed.

Example trim_suffix_absent : Strings.TrimSuffix "-8-amd64" "-arm64" = "-8-amd64".
Proof. reflexivity. Qed.

Example regexp_leftmost_first :
  option_map (fun r => Regexp.find r "xabcdd") (Regexp.compile "(a|ab)(c|bcd)(d*)")
  = Some ["abcdd"; "a"; "bcd"; "d"].
Proof. vm_compute. reflexivity. Qed.

Example regexp_dot_stops_at_newline :
  option_map (fun r => Regexp.find r "a12
34b a56b") (Regexp.compile "a(.*)b")
  = Some ["a56b"; "56"].
Proof. vm_compute. reflexivity. Qed.

Example regexp_nested_repetition_rejected : Regexp.compile "0++x" = None.
Proof. reflexivity. Qed.

Example template_unclosed_action :
  Template.Parse "cd {{ .DriverBuildDir" = Err (LibError "template" "unclosed action").
Proof. reflexivity. Qed.

Example template_missing_field_keeps_buffer :
  option_map (fun t => Template.Execute t (fun _ => None))
    (match Template.Parse "kernel-devel-{{ .KernelPackage }}.rpm" with
     | Ok t => Some t
     | _ => None
     end)
  = Some ("kernel-devel-",
          Some (LibError "template" "can't evaluate field KernelPackage")).
Proof. reflexivity. Qed.

(** * Further properties of debian.go *)

Section Kbuild.

Context {RE : Regexp.Engine}.
Variable E : Env.

(** X1. What each outcome of [debianKbuildURLFromRelease] means.  A URL comes
    from a match of exactly two elements, the whole match and the file; an
    error is the transport error, the read error, or "kbuild not found" for
    a match of any other length; and the function panics only when the
    pattern does not compile or the network panics, never on indexing the
    match. *)
Theorem kbuild_outcome_inversion (kr : KernelRelease) :
  let pattern := Fmt.sprintf kbuild_rmatch
                   [Fmt.AInt (Version kr); Fmt.AInt (PatchLevel kr); Fmt.AStr (arch kr)] in
  let base := kbuildBaseURL kr in
  match fst (debianKbuildURLFromRelease E kr) with
  | Ok url =>
      exists p resp body whole file,
        Regexp.MustCompile pattern = Some p
        /\ http_Get E base = Ok resp /\ Http.Body resp = Ok body
        /\ Regexp.FindStringSubmatch p body = [whole; file]
        /\ url = (base ++ file)%string
  | Err e =>
      http_Get E base = Err e
      \/ (exists resp, http_Get E base = Ok resp /\ Http.Body resp = Err e)
      \/ (e = Errorf "kbuild not found"
          /\ exists p resp body,
               Regexp.MustCompile pattern = Some p
               /\ http_Get E base = Ok resp /\ Http.Body resp = Ok body
               /\ List.length (Regexp.FindStringSubmatch p body) <> 2)
  | Panic =>
      Regexp.MustCompile pattern = None
      \/ http_Get E base = Panic
      \/ (exists resp, http_Get E base = Ok resp /\ Http.Body resp = Panic)
  end.
Proof.
  intros pattern base.
  unfold debianKbuildURLFromRelease, mustCompile, Get, ReadAll, index.
  fold pattern. fold base.
  destruct (Regexp.MustCompile pattern) as [p|] eqn:Hp; [|left; reflexivity].
  cbn [bind ret].
  destruct (http_Get E base) as [resp|e|] eqn:Hget; cbn [bind fst];
    [|left; reflexivity|right; left; reflexivity].
  destruct (Http.Body resp) as [body|e|] eqn:Hbody; cbn [bind fst];
    [|right; left; eauto|right; right; eauto].
  destruct (Regexp.FindStringSubmatch p body) as [|whole [|file [|x l]]] eqn:Hm; cbn.
  - right; right. split; [reflexivity|]. exists p, resp, body. rewrite Hm. cbn. repeat split; auto; lia.
  - right; right. split; [reflexivity|]. exists p, resp, body. rewrite Hm. cbn. repeat split; auto; lia.
  - exists p, resp, body, whole, file. rewrite append_nil_r. auto.
  - right; right. split; [reflexivity|]. exists p, resp, body. rewrite Hm. cbn. repeat split; auto; lia.
Qed.

(** X2. The kbuild package is chosen by the major and minor version and the
    architecture alone: releases that agree on these resolve alike, whatever
    their sublevel and extraversion. *)
Theorem kbuild_ignores_sublevel_and_extraversion (kr kr' : KernelRelease) :
  Version kr = Version kr' ->
  PatchLevel kr = PatchLevel kr' ->
  Architecture_ kr = Architecture_ kr' ->
  debianKbuildURLFromRelease E kr = debianKbuildURLFromRelease E kr'.
Proof.
  intros Hv Hp Ha.
  unfold debianKbuildURLFromRelease, kbuildBaseURL, arch.
  now rewrite Hv, Hp, Ha.
Qed.

(** The requests of the kbuild resolution: one, to its base URL, unless the
    pattern did not compile. *)
Lemma kbuild_trace (kr : KernelRelease) :
  snd (debianKbuildURLFromRelease E kr) = [kbuildBaseURL kr]
  \/ (fst (debianKbuildURLFromRelease E kr) = Panic
      /\ snd (debianKbuildURLFromRelease E kr) = []).
Proof.
  unfold debianKbuildURLFromRelease, mustCompile, Get, ReadAll, index.
  destruct (Regexp.MustCompile _) as [p|]; [|right; split; reflexivity].
  left. cbn [bind ret].
  destruct (http_Get E (kbuildBaseURL kr)) as [resp| |]; [|reflexivity..].
  cbn [bind].
  destruct (Http.Body resp) as [body| |]; [|reflexivity..].
  cbn [bind].
  destruct (Regexp.FindStringSubmatch p body) as [|whole [|file [|x l]]]; reflexivity.
Qed.

End Kbuild.

Lemma kbuild_outcome_inversion_witness :
  exists p resp body whole file,
    Regexp.MustCompile (Engine := Regexp.backtracking)
      (Fmt.sprintf kbuild_rmatch
         [Fmt.AInt (Version kr_5_10); Fmt.AInt (PatchLevel kr_5_10);
          Fmt.AStr (arch kr_5_10)]) = Some p
    /\ serve pages_5_10 (kbuildBaseURL kr_5_10) = Ok resp
    /\ Http.Body resp = Ok body
    /\ Regexp.FindStringSubmatch p body = [whole; file]
    /\ (kbuildPool ++ "linux-kbuild-5.10_5.10.103-1_amd64.deb")%string
       = (kbuildBaseURL kr_5_10 ++ file)%string.
Proof.
  exact (kbuild_outcome_inversion (RE := Regexp.backtracking)
           (env_of pages_5_10 (fun _ => true)) kr_5_10).
Defined.

Lemma kbuild_ignores_sublevel_and_extraversion_witness :
  debianKbuildURLFromRelease (RE := Regexp.backtracking)
    (env_of pages_5_10 (fun _ => true)) kr_5_10
  = debianKbuildURLFromRelease (RE := Regexp.backtracking)
      (env_of pages_5_10 (fun _ => true)) kr_5_10_103.
Proof.
  apply kbuild_ignores_sublevel_and_extraversion; reflexivity.
Defined.

Section Mirrors.

Context {RE : Regexp.Engine}.
Variable E : Env.

Lemma headersFrom_inversion (us : list string) (kr : KernelRelease) :
  (exists n, snd (headersFrom E us kr) = firstn n us /\ (us <> [] -> 1 <= n) /\ n <= List.length us)
  /\ (forall e, fst (headersFrom E us kr) = Err e ->
        e = Errorf "kernel headers not found" /\ snd (headersFrom E us kr) = us)
  /\ (forall urls, fst (headersFrom E us kr) = Ok urls ->
        exists pre u,
          snd (headersFrom E us kr) = pre ++ [u]
          /\ fst (fetchDebianHeadersURLFromRelease E u kr) = Ok urls
          /\ forall v, In v pre ->
               exists e, fst (fetchDebianHeadersURLFromRelease E v kr) = Err e).
Proof.
  induction us as [|u us IH]; simpl.
  - split; [exists 0; repeat split; auto; congruence|].
    split; [intros e H; injection H as <-; auto|discriminate].
  - pose proof (fetch_trace E u kr) as T.
    destruct (fetchDebianHeadersURLFromRelease E u kr) as [[got|e0|] t1] eqn:Hf;
      simpl in T; subst t1.
    + split; [exists 1; repeat split; auto; simpl; lia|].
      split; [discriminate|].
      intros urls H; injection H as <-.
      exists [], u. rewrite Hf. repeat split; auto. intros v [].
    + destruct IH as ((n & Hn & Hn1 & Hn2) & Herr & Hok).
      destruct (headersFrom E us kr) as [r t2]; simpl in *.
      split; [exists (S n); simpl; rewrite Hn; repeat split; auto; lia|].
      split.
      * intros e H. destruct (Herr e H) as [-> ->]. auto.
      * intros urls H. destruct (Hok urls H) as (pre & w & -> & Hw & Hpre).
        exists (u :: pre), w. split; [reflexivity|]. split; [assumption|].
        intros v [<-|Hin]; [rewrite Hf; simpl; eauto|auto].
    + split; [exists 1; repeat split; auto; simpl; lia|].
      split; discriminate.
Qed.

(** X3. The header mirrors are requested in the order of the list, from the
    first one on and without a gap, each at most once.  An error of
    [debianHeadersURLFromRelease] is always "kernel headers not found",
    after all three mirrors were requested: the errors of the mirrors
    themselves are never returned.  A success comes from the mirror
    requested last, every mirror before it having failed with an error. *)
Theorem headers_requests_in_order (kr : KernelRelease) :
  (exists n, 1 <= n <= 3 /\ snd (debianHeadersURLFromRelease E kr) = firstn n baseURLS)
  /\ (forall e, fst (debianHeadersURLFromRelease E kr) = Err e ->
        e = Errorf "kernel headers not found"
        /\ snd (debianHeadersURLFromRelease E kr) = baseURLS)
  /\ (forall urls, fst (debianHeadersURLFromRelease E kr) = Ok urls ->
        exists pre u,
          snd (debianHeadersURLFromRelease E kr) = pre ++ [u]
          /\ fst (fetchDebianHeadersURLFromRelease E u kr) = Ok urls
          /\ forall v, In v pre ->
               exists e, fst (fetchDebianHeadersURLFromRelease E v kr) = Err e).
Proof.
  unfold debianHeadersURLFromRelease.
  destruct (headersFrom_inversion baseURLS kr) as ((n & Hn & Hn1 & Hn2) & Herr & Hok).
  split; [|split; assumption].
  exists n. split; [|assumption].
  split; [apply Hn1; discriminate|exact Hn2].
Qed.

End Mirrors.

Lemma headers_requests_in_order_witness :
  exists pre u,
    [mirrorA; mirrorB] = pre ++ [u]
    /\ fst (fetchDebianHeadersURLFromRelease (RE := Regexp.backtracking)
              (env_of pages_split (fun _ => true)) u kr_5_10)
       = Ok [(mirrorB ++ "linux-headers-5.10.0-8-amd64_5.10.103-1_amd64.deb")%string;
             (mirrorB ++ "linux-headers-5.10.0-8-common_5.10.103-1_all.deb")%string]
    /\ forall v, In v pre ->
         exists e, fst (fetchDebianHeadersURLFromRelease (RE := Regexp.backtracking)
                          (env_of pages_split (fun _ => true)) v kr_5_10) = Err e.
Proof.
  apply (proj2 (proj2 (headers_requests_in_order (RE := Regexp.backtracking)
                         (env_of pages_split (fun _ => true)) kr_5_10))).
  vm_compute. reflexivity.
Defined.

Section KernelURLs.

Context {RE : Regexp.Engine}.
Variable E : Env.

(** X4. [fetchDebianKernelURLs] asks for the kbuild package first.  When that
    fails, its error is the error returned and no header mirror is
    requested; when it succeeds and the headers are not found, the error is
    "kernel headers not found" after the kbuild pool and all three mirrors
    were requested.  In every case the requests are a prefix of: the kbuild
    pool, then the header mirrors in their order; at most four requests. *)
Theorem kernel_urls_requests (kr : KernelRelease) :
  (forall e,
     fst (debianKbuildURLFromRelease E kr) = Err e ->
     fetchDebianKernelURLs E kr = (Err e, [kbuildBaseURL kr]))
  /\ (forall kbuild e,
        fst (debianKbuildURLFromRelease E kr) = Ok kbuild ->
        fst (debianHeadersURLFromRelease E kr) = Err e ->
        fetchDebianKernelURLs E kr
        = (Err (Errorf "kernel headers not found"), kbuildBaseURL kr :: baseURLS))
  /\ (exists rest,
        kbuildBaseURL kr :: baseURLS = snd (fetchDebianKernelURLs E kr) ++ rest)
  /\ List.length (snd (fetchDebianKernelURLs E kr)) <= 4.
Proof.
  unfold fetchDebianKernelURLs.
  pose proof (kbuild_trace E kr) as Tk.
  destruct (headersFrom_inversion E baseURLS kr) as ((n & Hn & _ & Hn2) & Herr & _).
  fold (debianHeadersURLFromRelease E kr) in Hn, Herr.
  destruct (debianKbuildURLFromRelease E kr) as [[k|e0|] t1]; simpl in Tk.
  - destruct Tk as [->|[Hc _]]; [|discriminate].
    cbn [bind fst].
    destruct (debianHeadersURLFromRelease E kr) as [[hs|e1|] t2]; simpl in *; subst t2.
    + split; [discriminate|]. split; [discriminate|].
      rewrite ?app_nil_r.
      split; [exists (skipn n baseURLS); now rewrite firstn_skipn|].
      rewrite length_firstn. simpl. lia.
    + destruct (Herr e1 eq_refl) as [-> Ht].
      split; [discriminate|].
      rewrite ?app_nil_r.
      split; [intros; now rewrite Ht|].
      rewrite ?app_nil_r.
      split; [exists (skipn n baseURLS); now rewrite firstn_skipn|].
      rewrite length_firstn. simpl. lia.
    + split; [discriminate|]. split; [discriminate|].
      rewrite ?app_nil_r.
      split; [exists (skipn n baseURLS); now rewrite firstn_skipn|].
      rewrite length_firstn. simpl. lia.
  - destruct Tk as [->|[Hc _]]; [|discriminate].
    cbn [bind fst snd].
    split; [intros e H; injection H as <-; reflexivity|].
    split; [discriminate|].
    split; [exists baseURLS; reflexivity|simpl; lia].
  - cbn [bind fst snd].
    split; [discriminate|]. split; [discriminate|].
    destruct Tk as [->|[_ ->]].
    + split; [exists baseURLS; reflexivity|simpl; lia].
    + split; [exists (kbuildBaseURL kr :: baseURLS); reflexivity|simpl; lia].
Qed.

End KernelURLs.

Lemma kernel_urls_requests_witness :
  fetchDebianKernelURLs (RE := Regexp.backtracking)
    (env_of pages_kbuild_down (fun _ => true)) kr_5_10
  = (Err (LibError "http"
            "Get http://mirrors.kernel.org/debian/pool/main/l/linux/: no such host"),
     [kbuildBaseURL kr_5_10]).
Proof.
  apply (proj1 (kernel_urls_requests (RE := Regexp.backtracking)
                  (env_of pages_kbuild_down (fun _ => true)) kr_5_10)).
  vm_compute. reflexivity.
Defined.

Section Overrides.

Context {RE RE' : Regexp.Engine} {TE : Template.Engine}.
Variables E E' : Env.

(** X5. With override URLs the resolution is bypassed altogether: [Script]
    makes no GET request, and what it returns is the same under any other
    regexp engine and any other network, as long as [getResolvingURLs]
    answers alike on the overrides; it panics only if the template parser
    or [getResolvingURLs] does. *)
Theorem script_overrides_bypass_resolution (c : Config) (kr : KernelRelease)
  (given : list string) :
  KernelUrls c = Some given ->
  getResolvingURLs E given = getResolvingURLs E' given ->
  DriverDirectory E = DriverDirectory E' ->
  ModuleFullPath E = ModuleFullPath E' ->
  debianTemplate E = debianTemplate E' ->
  snd (Script (RE := RE) E c kr) = []
  /\ Script (RE := RE) E c kr = Script (RE := RE') E' c kr
  /\ (fst (Script (RE := RE) E c kr) = Panics ->
      Template.parse (Fmt.sprintf (debianTemplate E) [Fmt.AStr (arch kr)]) = Panic
      \/ getResolvingURLs E given = Panic).
Proof.
  intros Hk Hg Hd Hm Ht.
  unfold Script, resolveURLs, templateData. rewrite Hk, <- Hg, <- Hd, <- Hm, <- Ht.
  destruct (Template.parse _) as [parsed| |]; [|repeat split; auto; discriminate..].
  destruct (getResolvingURLs E given) as [urls| |]; [|repeat split; auto; discriminate..].
  destruct (List.length urls <? 3)%nat; [repeat split; auto; discriminate|].
  destruct (Template.execute _ _) as [buf [e|]]; repeat split; auto; discriminate.
Qed.

End Overrides.

Lemma script_overrides_bypass_resolution_witness :
  snd (Script (RE := Regexp.backtracking) (TE := Template.fragment)
         (env_of [] (fun _ => true)) config_two_overrides kr_5_10) = []
  /\ Script (RE := Regexp.backtracking) (TE := Template.fragment)
       (env_of [] (fun _ => true)) config_two_overrides kr_5_10
     = Script (RE := Regexp.backtracking) (TE := Template.fragment)
         (env_of pages_5_10 (fun _ => true)) config_two_overrides kr_5_10.
Proof.
  destruct (@script_overrides_bypass_resolution Regexp.backtracking Regexp.backtracking
              Template.fragment (env_of [] (fun _ => true))
              (env_of pages_5_10 (fun _ => true)) config_two_overrides kr_5_10
              ["http://example.org/headers.deb"; "http://example.org/common.deb"]
              eq_refl eq_refl eq_refl eq_refl eq_refl) as (H1 & H2 & _).
  split; assumption.
Defined.

Section Success.

Context {RE : Regexp.Engine} {TE : Template.Engine}.
Variable E : Env.

(** X6. [Script] succeeds exactly when its four stages do: the template
    parses, the URLs resolve, at least three are left, and the template
    executes without error; its text is then the whole buffer of that
    execution, on the data built from all the URLs left, in their order. *)
Theorem script_succeeds_iff (c : Config) (kr : KernelRelease) (text : string)
  (t : list string) :
  Script E c kr = (Returns text None, t)
  <-> exists parsed urls,
        Template.parse (Fmt.sprintf (debianTemplate E) [Fmt.AStr (arch kr)]) = Ok parsed
        /\ resolveURLs E c kr = (Ok urls, t)
        /\ 3 <= List.length urls
        /\ Template.execute parsed (debianTemplateData_fields (templateData E c kr urls))
           = (text, None)
        /\ td_KernelDownloadURLS (templateData E c kr urls) = urls.
Proof.
  unfold Script. split.
  - destruct (Template.parse _) as [parsed| |]; try discriminate.
    destruct (resolveURLs E c kr) as [[urls| |] t1]; try discriminate.
    destruct (List.length urls <? 3)%nat eqn:Hl; [discriminate|].
    destruct (Template.execute _ _) as [buf [e|]] eqn:Hx; [discriminate|].
    intros H; injection H as <- <-.
    exists parsed, urls. apply Nat.ltb_ge in Hl. auto.
  - intros (parsed & urls & Hp & Hr & Hl & Hx & _).
    rewrite Hp, Hr, (proj2 (Nat.ltb_ge _ _) Hl), Hx. reflexivity.
Qed.

Lemma filter_drops (A : Type) (keep : A -> bool) (l : list A) (a : A) :
  In a l -> keep a = false -> List.length (filter keep l) < List.length l.
Proof.
  induction l as [|b l IH]; simpl; [intros []|].
  intros [->|Hin] Ha.
  - rewrite Ha. pose proof (filter_length_le keep l). lia.
  - specialize (IH Hin Ha). destruct (keep b); simpl; lia.
Qed.

(** X7. On the mirror branch the resolution finds exactly three URLs, so when
    [getResolvingURLs] only filters its argument, a single resolved URL
    that it drops makes [Script] fail with "specific kernel headers not
    found". *)
Theorem script_mirror_branch_needs_every_url (c : Config) (kr : KernelRelease)
  parsed (kurls t : list string) (keep : string -> bool) (dropped : string) :
  Template.parse (Fmt.sprintf (debianTemplate E) [Fmt.AStr (arch kr)]) = Ok parsed ->
  KernelUrls c = None ->
  fetchDebianKernelURLs E kr = (Ok kurls, t) ->
  getResolvingURLs E kurls = Ok (filter keep kurls) ->
  In dropped kurls -> keep dropped = false ->
  Script E c kr = (Returns "" (Some (Errorf "specific kernel headers not found")), t).
Proof.
  intros Hp Hk Hf Hg Hin Hdrop.
  apply Script_short with parsed (filter keep kurls); auto.
  - rewrite (@resolveURLs_mirrors RE E c kr kurls t Hk Hf). now rewrite Hg.
  - assert (Hlen : List.length kurls = 3).
    { revert Hf. unfold fetchDebianKernelURLs.
      destruct (debianKbuildURLFromRelease E kr) as [[k| |] t1]; [|discriminate..].
      cbn [bind].
      destruct (debianHeadersURLFromRelease E kr) as [[hs| |] t2] eqn:Hh; [|discriminate..].
      cbn. intros H; injection H as <- _.
      destruct (headersFrom_ok _ _ _ Hh) as (u & h & c' & _ & -> & _).
      reflexivity. }
    pose proof (filter_drops keep kurls dropped Hin Hdrop). lia.
Qed.

End Success.

Lemma script_succeeds_iff_witness :
  exists text,
    Script (RE := Regexp.backtracking) (TE := Template.fragment)
      (env_of pages_5_10 (fun _ => true)) config_both kr_5_10
    = (Returns text None, [kbuildPool; mirrorA]).
Proof.
  eexists.
  apply (proj2 (script_succeeds_iff (RE := Regexp.backtracking) (TE := Template.fragment)
                  (env_of pages_5_10 (fun _ => true)) config_both kr_5_10 _ _)).
  do 2 eexists.
  split; [vm_compute; reflexivity|].
  split; [vm_compute; reflexivity|].
  split; [simpl; lia|].
  split; [vm_compute; reflexivity|reflexivity].
Defined.

Lemma script_mirror_branch_needs_every_url_witness :
  Script (RE := Regexp.backtracking) (TE := Template.fragment)
    (env_of pages_5_10
       (fun u => negb (String.eqb u
                         (kbuildPool ++ "linux-kbuild-5.10_5.10.103-1_amd64.deb"))))
    config_both kr_5_10
  = (Returns "" (Some (Errorf "specific kernel headers not found")),
     [kbuildPool; mirrorA]).
Proof.
  destruct (Template.Parse (Fmt.sprintf debian_sh [Fmt.AStr (arch kr_5_10)]))
    as [parsed| |] eqn:Hp; [|vm_compute in Hp; discriminate..].
  apply (@script_mirror_branch_needs_every_url Regexp.backtracking Template.fragment
           (env_of pages_5_10
              (fun u => negb (String.eqb u
                                (kbuildPool ++ "linux-kbuild-5.10_5.10.103-1_amd64.deb"))))
           config_both kr_5_10 parsed
           [(mirrorA ++ "linux-headers-5.10.0-8-amd64_5.10.103-1_amd64.deb")%string;
            (mirrorA ++ "linux-headers-5.10.0-8-common_5.10.103-1_all.deb")%string;
            (kbuildPool ++ "linux-kbuild-5.10_5.10.103-1_amd64.deb")%string]
           [kbuildPool; mirrorA]
           (fun u => negb (String.eqb u
                             (kbuildPool ++ "linux-kbuild-5.10_5.10.103-1_amd64.deb")))
           (kbuildPool ++ "linux-kbuild-5.10_5.10.103-1_amd64.deb")%string).
  - exact Hp.
  - reflexivity.
  - vm_compute. reflexivity.
  - reflexivity.
  - simpl. auto.
  - vm_compute. reflexivity.
Defined.

(** ** The extraversion and its architecture suffix *)

Lemma strip_prefix_app_l (p s r t : list ascii) :
  Strings.strip_prefix p s = Some r -> Strings.strip_prefix p (s ++ t) = Some (r ++ t).
Proof.
  revert s; induction p as [|a p IH]; intros s; simpl.
  - intros H; injection H as <-. reflexivity.
  - destruct s as [|b s]; simpl; [discriminate|].
    destruct (Ascii.eqb a b); [apply IH|discriminate].
Qed.

Ltac decide_eqb :=
  repeat match goal with
  | H : context [Ascii.eqb ?a ?b] |- _ =>
      first [ is_var b; destruct (Ascii.eqb a b)
            | let v := eval vm_compute in (Ascii.eqb a b) in
              change (Ascii.eqb a b) with v in H ];
      cbn [Strings.strip_prefix app] in H
  | |- context [Ascii.eqb ?a ?b] =>
      first [ is_var b; destruct (Ascii.eqb a b)
            | let v := eval vm_compute in (Ascii.eqb a b) in
              change (Ascii.eqb a b) with v ];
      cbn [Strings.strip_prefix app]
  end.

(** "-cloud" cannot begin in the extraversion and end in the "-<arch>"
    that follows it. *)
Lemma cloud_not_across (a : Architecture) (f : list ascii) :
  recognized a ->
  Strings.strip_prefix (list_ascii_of_string "-cloud") f = None ->
  Strings.strip_prefix (list_ascii_of_string "-cloud")
    (f ++ list_ascii_of_string ("-" ++ a)) = None.
Proof.
  intros [->| ->].
  all: cbn [list_ascii_of_string String.append ArchitectureAmd64 ArchitectureArm64].
  all: destruct f as [|c1 [|c2 [|c3 [|c4 [|c5 [|c6 f]]]]]].
  all: cbn [Strings.strip_prefix app]; intros H; decide_eqb;
       try reflexivity; try discriminate.
Qed.

Lemma contains_cloud_before_arch (a : Architecture) (f : list ascii) :
  recognized a ->
  Strings.contains_at (list_ascii_of_string "-cloud")
    (f ++ list_ascii_of_string ("-" ++ a))
  = Strings.contains_at (list_ascii_of_string "-cloud") f.
Proof.
  intros Ha. induction f as [|c f IH].
  - destruct Ha as [->| ->]; reflexivity.
  - change ((c :: f) ++ list_ascii_of_string ("-" ++ a))
      with (c :: (f ++ list_ascii_of_string ("-" ++ a))).
    cbn [Strings.contains_at].
    change (c :: (f ++ list_ascii_of_string ("-" ++ a)))
      with ((c :: f) ++ list_ascii_of_string ("-" ++ a)).
    destruct (Strings.strip_prefix (list_ascii_of_string "-cloud") (c :: f)) as [r|] eqn:Hs.
    + now rewrite (@strip_prefix_app_l _ _ _ (list_ascii_of_string ("-" ++ a)) Hs).
    + now rewrite (@cloud_not_across a (c :: f) Ha Hs), IH.
Qed.

Section ArchSuffix.

Context {RE : Regexp.Engine}.
Variable E : Env.

(** A call depends on the release through its four patterns only. *)
Lemma fetch_by_patterns (base : string) (kr kr' : KernelRelease) :
  fullregex_of kr (matchExtraGroup kr) = fullregex_of kr' (matchExtraGroup kr') ->
  fullregexNew_of kr (matchExtraGroup kr) = fullregexNew_of kr' (matchExtraGroup kr') ->
  fullregex_of kr matchExtraGroupCommon = fullregex_of kr' matchExtraGroupCommon ->
  fullregexNew_of kr matchExtraGroupCommon = fullregexNew_of kr' matchExtraGroupCommon ->
  fetchDebianHeadersURLFromRelease E base kr = fetchDebianHeadersURLFromRelease E base kr'.
Proof.
  intros H1 H2 H3 H4.
  rewrite (fetch_by_roles E base kr), (fetch_by_roles E base kr').
  generalize dependent (fullregex_of kr (matchExtraGroup kr)).
  generalize dependent (fullregexNew_of kr (matchExtraGroup kr)).
  generalize dependent (fullregex_of kr matchExtraGroupCommon).
  generalize dependent (fullregexNew_of kr matchExtraGroupCommon).
  intros; subst; reflexivity.
Qed.

(** X8. The trailing "-<arch>" of the extraversion is optional: for a
    recognized architecture, a release given as 5.10.0-8 resolves exactly
    as the release 5.10.0-8-amd64 does, with the same patterns, the same
    requests and the same URLs. *)
Theorem arch_suffix_is_optional (v p s : Z) (f : string) (a : Architecture) :
  recognized a ->
  Strings.HasSuffix f ("-" ++ a) = false ->
  let short := {| Version := v; PatchLevel := p; Sublevel := s;
                  FullExtraversion := f; Architecture_ := a |} in
  let long := {| Version := v; PatchLevel := p; Sublevel := s;
                 FullExtraversion := f ++ "-" ++ a; Architecture_ := a |} in
  extraVersionPartial short = extraVersionPartial long
  /\ matchExtraGroup short = matchExtraGroup long
  /\ (forall base,
        fetchDebianHeadersURLFromRelease E base short
        = fetchDebianHeadersURLFromRelease E base long)
  /\ fetchDebianKernelURLs E short = fetchDebianKernelURLs E long.
Proof.
  intros Ha Hf short long.
  assert (Hc : Strings.Contains (FullExtraversion long) "-cloud"
               = Strings.Contains (FullExtraversion short) "-cloud").
  { unfold Strings.Contains. cbn [FullExtraversion long short].
    rewrite list_ascii_of_string_app. now apply contains_cloud_before_arch. }
  assert (Hx : extraVersionPartial short = extraVersionPartial long).
  { unfold extraVersionPartial. rewrite Hc.
    change (arch short) with a. change (arch long) with a.
    cbn [FullExtraversion long short].
    now rewrite TrimSuffix_app, (@TrimSuffix_none f ("-" ++ a) Hf). }
  assert (Hg : matchExtraGroup short = matchExtraGroup long).
  { unfold matchExtraGroup. now rewrite Hc. }
  assert (Ho : forall grp, fullregex_of short grp = fullregex_of long grp).
  { intros grp. unfold fullregex_of. now rewrite Hx. }
  assert (Hn : forall grp, fullregexNew_of short grp = fullregexNew_of long grp).
  { intros grp. unfold fullregexNew_of. now rewrite Hx. }
  assert (Hfetch : forall base,
            fetchDebianHeadersURLFromRelease E base short
            = fetchDebianHeadersURLFromRelease E base long).
  { intros base.
    apply fetch_by_patterns;
      [rewrite Hg; apply Ho | rewrite Hg; apply Hn | apply Ho | apply Hn]. }
  split; [exact Hx|]. split; [exact Hg|]. split; [exact Hfetch|].
  unfold fetchDebianKernelURLs, debianHeadersURLFromRelease.
  assert (Hloop : forall us, headersFrom E us short = headersFrom E us long).
  { induction us as [|u us IH]; simpl; [reflexivity|]. now rewrite Hfetch, IH. }
  now rewrite Hloop.
Qed.

End ArchSuffix.

Lemma arch_suffix_is_optional_witness :
  fetchDebianKernelURLs (RE := Regexp.backtracking) (env_of pages_5_10 (fun _ => true))
    {| Version := 5; PatchLevel := 10; Sublevel := 0;
       FullExtraversion := "-8"; Architecture_ := ArchitectureAmd64 |}
  = fetchDebianKernelURLs (RE := Regexp.backtracking) (env_of pages_5_10 (fun _ => true))
      {| Version := 5; PatchLevel := 10; Sublevel := 0;
         FullExtraversion := "-8" ++ "-" ++ ArchitectureAmd64;
         Architecture_ := ArchitectureAmd64 |}.
Proof.
  apply (@arch_suffix_is_optional Regexp.backtracking
           (env_of pages_5_10 (fun _ => true)) 5 10 0 "-8" ArchitectureAmd64
           (or_introl eq_refl) eq_refl).
Defined.

Lemma contains_at_eq (sub s : list ascii) :
  Strings.contains_at sub s =
  match Strings.strip_prefix sub s with
  | Some _ => true
  | None => match s with
            | [] => false
            | _ :: s' => Strings.contains_at sub s'
            end
  end.
Proof. destruct s; reflexivity. Qed.

Lemma contains_at_here (sub f t : list ascii) :
  Strings.contains_at sub (f ++ sub ++ t) = true.
Proof.
  induction f as [|c f IH].
  - rewrite contains_at_eq. cbn [app]. rewrite strip_prefix_app. reflexivity.
  - rewrite contains_at_eq.
    destruct (Strings.strip_prefix sub ((c :: f) ++ sub ++ t)); [reflexivity|].
    exact IH.
Qed.

(** X9. A cloud kernel, whose extraversion ends in "-cloud-<arch>": the
    marker leaves the version fragment and joins the architecture in the
    naming group of the primary headers, so that 4.19.0-6-cloud-amd64 looks
    for linux-headers-4.19.0-6-cloud-amd64 and, for the common headers,
    for linux-headers-4.19.0-6-common, the name of the plain kernel. *)
Theorem cloud_release_patterns (v p s : Z) (f : string) (a : Architecture) :
  let kr := {| Version := v; PatchLevel := p; Sublevel := s;
               FullExtraversion := f ++ "-cloud" ++ "-" ++ a; Architecture_ := a |} in
  let plain := {| Version := v; PatchLevel := p; Sublevel := s;
                  FullExtraversion := f ++ "-" ++ a; Architecture_ := a |} in
  extraVersionPartial kr = f
  /\ matchExtraGroup kr = ("cloud-" ++ a)%string
  /\ fullregex_of kr (matchExtraGroup kr) =
       ("href=" ++ Strings.dquote ++ "(linux-headers-"
        ++ Fmt.itoa v ++ "\." ++ Fmt.itoa p ++ "\." ++ Fmt.itoa s ++ f
        ++ "-(cloud-" ++ a ++ ")_.*(" ++ a ++ "|all)\.deb)" ++ Strings.dquote)%string
  /\ (Strings.Contains f "-cloud" = false ->
      recognized a ->
      fullregex_of kr matchExtraGroupCommon = fullregex_of plain matchExtraGroupCommon
      /\ fullregexNew_of kr matchExtraGroupCommon
         = fullregexNew_of plain matchExtraGroupCommon).
Proof.
  intros kr plain.
  assert (Hc : Strings.Contains (FullExtraversion kr) "-cloud" = true).
  { unfold Strings.Contains. cbn [FullExtraversion kr].
    rewrite !list_ascii_of_string_app. apply contains_at_here. }
  assert (Hx : extraVersionPartial kr = f).
  { unfold extraVersionPartial. rewrite Hc. change (arch kr) with a.
    cbn [FullExtraversion kr].
    replace (f ++ "-cloud" ++ "-" ++ a)%string with ((f ++ "-cloud") ++ "-" ++ a)%string
      by apply append_assoc.
    now rewrite !TrimSuffix_app. }
  assert (Hg : matchExtraGroup kr = ("cloud-" ++ a)%string).
  { unfold matchExtraGroup. now rewrite Hc. }
  split; [exact Hx|]. split; [exact Hg|]. split.
  - rewrite fullregex_of_eq, Hx, Hg. change (arch kr) with a.
    cbn [Version PatchLevel Sublevel kr]. norm_string. reflexivity.
  - intros Hf Ha.
    assert (Hp : extraVersionPartial plain = f).
    { unfold extraVersionPartial. change (arch plain) with a.
      cbn [FullExtraversion plain].
      assert (Hcp : Strings.Contains (f ++ "-" ++ a) "-cloud" = false).
      { unfold Strings.Contains. rewrite list_ascii_of_string_app.
        rewrite contains_cloud_before_arch by exact Ha. exact Hf. }
      rewrite Hcp. apply TrimSuffix_app. }
    unfold fullregex_of, fullregexNew_of. rewrite Hx, Hp. split; reflexivity.
Qed.

Lemma cloud_release_patterns_witness :
  fullregex_of kr_cloud matchExtraGroupCommon
  = fullregex_of {| Version := 4; PatchLevel := 19; Sublevel := 0;
                    FullExtraversion := "-6-amd64";
                    Architecture_ := ArchitectureAmd64 |} matchExtraGroupCommon
  /\ fullregexNew_of kr_cloud matchExtraGroupCommon
     = fullregexNew_of {| Version := 4; PatchLevel := 19; Sublevel := 0;
                          FullExtraversion := "-6-amd64";
                          Architecture_ := ArchitectureAmd64 |} matchExtraGroupCommon.
Proof.
  apply (proj2 (proj2 (proj2 (cloud_release_patterns 4 19 0 "-6" ArchitectureAmd64)))).
  - reflexivity.
  - left. reflexivity.
Defined.

Section IndexPanic.

Context {RE : Regexp.Engine}.
Variable E : Env.

Lemma resolveRole_no_panic (body older newer role : string) :
  (exists p, Regexp.MustCompile older = Some p) ->
  (exists p, Regexp.MustCompile newer = Some p) ->
  fst (resolveRole body older newer role) <> Panic.
Proof.
  intros [po Hpo] [pn Hpn]. unfold resolveRole, mustCompile.
  rewrite Hpo. cbn [bind ret].
  destruct (Regexp.FindStringSubmatch po body); [|discriminate].
  rewrite Hpn. cbn [bind ret].
  destruct (Regexp.FindStringSubmatch pn body); discriminate.
Qed.

Lemma resolveRole_ok_found (body older newer role : string) (found : list string) :
  fst (resolveRole body older newer role) = Ok found ->
  exists pat p,
    (pat = older \/ pat = newer)
    /\ Regexp.MustCompile pat = Some p
    /\ found = Regexp.FindStringSubmatch p body /\ found <> [].
Proof.
  unfold resolveRole, mustCompile.
  destruct (Regexp.MustCompile older) as [po|] eqn:Hpo; [|discriminate].
  cbn [bind ret].
  destruct (Regexp.FindStringSubmatch po body) as [|x l] eqn:Hm.
  - destruct (Regexp.MustCompile newer) as [pn|] eqn:Hpn; [|discriminate].
    cbn [bind ret].
    destruct (Regexp.FindStringSubmatch pn body) as [|y l'] eqn:Hm'; [discriminate|].
    cbn. intros H; injection H as <-.
    exists newer, pn. rewrite Hm'. repeat split; auto. discriminate.
  - cbn. intros H; injection H as <-.
    exists older, po. rewrite Hm. repeat split; auto. discriminate.
Qed.

(** X10. [fetchDebianHeadersURLFromRelease] guards its matches with
    [len(matches) < 1] and then reads [matches[1]].  With a network that
    does not panic, patterns that compile and an engine whose matches carry
    their first group (no match of exactly one element), that read is in
    range: the function returns, it does not panic. *)
Theorem headers_fetch_does_not_panic (base : string) (kr : KernelRelease) :
  http_Get E base <> Panic ->
  (forall resp, http_Get E base = Ok resp -> Http.Body resp <> Panic) ->
  (forall pat,
     In pat [fullregex_of kr (matchExtraGroup kr);
             fullregexNew_of kr (matchExtraGroup kr);
             fullregex_of kr matchExtraGroupCommon;
             fullregexNew_of kr matchExtraGroupCommon] ->
     exists p,
       Regexp.MustCompile pat = Some p
       /\ forall index_body,
            List.length (Regexp.FindStringSubmatch p index_body) <> 1) ->
  fst (fetchDebianHeadersURLFromRelease E base kr) <> Panic.
Proof.
  intros Hget Hbody Hpat.
  assert (Hcomp : forall pat,
            In pat [fullregex_of kr (matchExtraGroup kr);
                    fullregexNew_of kr (matchExtraGroup kr);
                    fullregex_of kr matchExtraGroupCommon;
                    fullregexNew_of kr matchExtraGroupCommon] ->
            exists p, Regexp.MustCompile pat = Some p).
  { intros pat Hin. destruct (Hpat pat Hin) as (p & Hp & _). eauto. }
  assert (Hgroups : forall pat p index_body,
            In pat [fullregex_of kr (matchExtraGroup kr);
                    fullregexNew_of kr (matchExtraGroup kr);
                    fullregex_of kr matchExtraGroupCommon;
                    fullregexNew_of kr matchExtraGroupCommon] ->
            Regexp.MustCompile pat = Some p ->
            List.length (Regexp.FindStringSubmatch p index_body) <> 1).
  { intros pat p b Hin Hp. destruct (Hpat pat Hin) as (p' & Hp' & Hl).
    rewrite Hp in Hp'. injection Hp' as <-. apply Hl. }
  rewrite fetch_by_roles. unfold Get, ReadAll.
  destruct (http_Get E base) as [resp| |] eqn:Hg; [|discriminate|contradiction].
  cbn [bind]. specialize (Hbody resp eq_refl).
  destruct (Http.Body resp) as [body| |]; [|discriminate|contradiction].
  cbn [bind].
  pose proof (@resolveRole_no_panic body (fullregex_of kr (matchExtraGroup kr))
                (fullregexNew_of kr (matchExtraGroup kr)) "kernel headers"
                (Hcomp _ (or_introl eq_refl))
                (Hcomp _ (or_intror (or_introl eq_refl)))) as N1.
  pose proof (@resolveRole_ok_found body (fullregex_of kr (matchExtraGroup kr))
                (fullregexNew_of kr (matchExtraGroup kr)) "kernel headers") as F1.
  destruct (resolveRole body _ _ "kernel headers") as [[found| |] t1];
    [|discriminate|contradiction].
  cbn [bind].
  pose proof (@resolveRole_no_panic body (fullregex_of kr matchExtraGroupCommon)
                (fullregexNew_of kr matchExtraGroupCommon) "kernel headers common"
                (Hcomp _ (or_intror (or_intror (or_introl eq_refl))))
                (Hcomp _ (or_intror (or_intror (or_intror (or_introl eq_refl)))))) as N2.
  pose proof (@resolveRole_ok_found body (fullregex_of kr matchExtraGroupCommon)
                (fullregexNew_of kr matchExtraGroupCommon) "kernel headers common") as F2.
  destruct (resolveRole body _ _ "kernel headers common") as [[fc| |] t2];
    [|simpl; discriminate|contradiction].
  destruct (F1 found eq_refl) as (pat1 & p1 & Hin1 & Hp1 & -> & Hne1).
  destruct (F2 fc eq_refl) as (pat2 & p2 & Hin2 & Hp2 & -> & Hne2).
  assert (L1 : List.length (Regexp.FindStringSubmatch p1 body) <> 1).
  { apply Hgroups with pat1; [|exact Hp1].
    destruct Hin1 as [->| ->]; [left; reflexivity|right; left; reflexivity]. }
  assert (L2 : List.length (Regexp.FindStringSubmatch p2 body) <> 1).
  { apply Hgroups with pat2; [|exact Hp2].
    destruct Hin2 as [->| ->];
      [right; right; left; reflexivity|right; right; right; left; reflexivity]. }
  unfold index.
  destruct (Regexp.FindStringSubmatch p1 body) as [|w1 [|h l1]];
    [congruence|simpl in L1; lia|].
  destruct (Regexp.FindStringSubmatch p2 body) as [|w2 [|c l2]];
    [congruence|simpl in L2; lia|].
  cbn. destruct t1, t2; discriminate.
Qed.

End IndexPanic.

(** A match of the backtracking engine carries one element per group
    besides the whole match. *)
Lemma find_length (r : Regexp.regex) (g : nat) (text : string) :
  List.length (Regexp.find (r, g) text) = 0
  \/ List.length (Regexp.find (r, g) text) = S g.
Proof.
  unfold Regexp.find.
  destruct (Regexp.search _ _ _ _); [right|left; reflexivity].
  now rewrite length_map, length_seq.
Qed.


Lemma headers_fetch_does_not_panic_witness :
  fst (fetchDebianHeadersURLFromRelease (RE := Regexp.backtracking)
         (env_of pages_split (fun _ => true)) mirrorA kr_5_10) <> Panic.
Proof.
  apply (@headers_fetch_does_not_panic Regexp.backtracking
           (env_of pages_split (fun _ => true)) mirrorA kr_5_10).
  - vm_compute. discriminate.
  - intros resp H. vm_compute in H. injection H as <-. discriminate.
  - intros pat [<-|[<-|[<-|[<-|[]]]]].
    all: match goal with
         | |- exists p, Regexp.MustCompile ?pat = Some p /\ _ =>
             let c := eval vm_compute in (Regexp.compile pat) in
             match c with
             | Some (?r, ?g) =>
                 exists (r, g); split; [vm_compute; reflexivity|];
                 intros b; destruct (find_length r g b) as [H|H];
                 cbn [Regexp.FindStringSubmatch Regexp.backtracking];
                 rewrite H; discriminate
             end
         end.
Defined.

(** ** The templates among the sources *)

Ltac use_fields :=
  repeat match goal with
  | H : ?d ?name = Some _ |- context [?d ?name] => rewrite H
  end.

(** X11. The script template with yum parses, and on data carrying its fields
    it renders the acquisition preamble, then the module-build section
    exactly when [BuildModule] is set and the probe-build section exactly
    when [BuildProbe] is set.  The fields that only the module section
    reads need not be there when that section is off. *)
Theorem yum_sh_renders :
  exists parsed,
    Template.Parse yum_sh = Ok parsed
    /\ forall (d : Template.data) (dir source pkg name out : string)
              (buildModule buildProbe : bool),
         d "DriverBuildDir" = Some (Template.VString dir) ->
         d "ModuleDownloadURL" = Some (Template.VString source) ->
         d "KernelPackage" = Some (Template.VString pkg) ->
         d "BuildModule" = Some (Template.VBool buildModule) ->
         d "BuildProbe" = Some (Template.VBool buildProbe) ->
         (buildModule = true ->
          d "ModuleDriverName" = Some (Template.VString name)
          /\ d "ModuleFullPath" = Some (Template.VString out)) ->
         Template.Execute parsed d
         = (yum_rendered dir source pkg name out buildModule buildProbe, None).
Proof.
  eexists. split; [vm_compute; reflexivity|].
  intros d dir source pkg name out bm bp Hdir Hsrc Hpkg Hbm Hbp Hmod.
  unfold Template.Execute. cbn -[String.append]. use_fields.
  cbn -[String.append]. use_fields.
  unfold yum_rendered, yum_preamble, yum_module_section, yum_probe_section, section_gap.
  destruct bm.
  - destruct (Hmod eq_refl) as [Hname Hout].
    cbn -[String.append]. use_fields.
    destruct bp; cbn -[String.append]; use_fields; cbn -[String.append];
      norm_string; reflexivity.
  - destruct bp; cbn -[String.append]; use_fields; cbn -[String.append];
      norm_string; reflexivity.
Qed.

(** X12. The script template of the openSUSE builder parses, and on data
    carrying its fields it renders the preamble with one download block per
    kernel URL, in the order of the list (none for an empty list), then the
    module-build section exactly when [BuildModule] is set and the
    probe-build section exactly when [BuildProbe] is set.  [GCCVersion] and
    [ModuleFullPath] are read by the module section only. *)
Theorem opensuse_sh_renders :
  exists parsed,
    Template.Parse opensuse_sh = Ok parsed
    /\ forall (d : Template.data) (dir source : string) (urls : list string)
              (name gcc out : string) (buildModule buildProbe : bool),
         d "DriverBuildDir" = Some (Template.VString dir) ->
         d "ModuleDownloadURL" = Some (Template.VString source) ->
         d "KernelDownloadURLs" = Some (Template.VStrings urls) ->
         d "ModuleDriverName" = Some (Template.VString name) ->
         d "BuildModule" = Some (Template.VBool buildModule) ->
         d "BuildProbe" = Some (Template.VBool buildProbe) ->
         (buildModule = true ->
          d "GCCVersion" = Some (Template.VString gcc)
          /\ d "ModuleFullPath" = Some (Template.VString out)) ->
         Template.Execute parsed d
         = (opensuse_rendered dir source urls name gcc out buildModule buildProbe, None).
Proof.
  eexists. split; [vm_compute; reflexivity|].
  intros d dir source urls name gcc out bm bp Hdir Hsrc Hurls Hname Hbm Hbp Hmod.
  unfold Template.Execute. cbn -[String.append]. use_fields.
  cbn -[String.append]. use_fields. cbn -[String.append].
  match goal with
  | |- context [?f urls] =>
      assert (Hloop : forall l, f l = (opensuse_download_loop l, None))
  end.
  { induction l as [|u l IH]; [reflexivity|]. cbn -[String.append].
    cbn -[String.append] in IH. rewrite IH. cbn [opensuse_download_loop].
    norm_string. reflexivity. }
  rewrite Hloop; clear Hloop.
  cbn -[String.append]. use_fields. cbn -[String.append]. use_fields.
  unfold opensuse_rendered, opensuse_preamble, opensuse_module_section,
    opensuse_probe_section, section_gap, opensuse_header.
  destruct bm.
  - destruct (Hmod eq_refl) as [Hgcc Hout].
    cbn -[String.append]. use_fields.
    destruct bp; cbn -[String.append]; use_fields; cbn -[String.append];
      norm_string; reflexivity.
  - destruct bp; cbn -[String.append]; use_fields; cbn -[String.append];
      norm_string; reflexivity.
Qed.

Lemma yum_sh_renders_witness :
  exists parsed,
    Template.Parse yum_sh = Ok parsed
    /\ Template.Execute parsed
         (fun name =>
            Template.lookup name
              [("DriverBuildDir", Template.VString "/tmp/driver");
               ("ModuleDownloadURL", Template.VString "https://example.org/src.tar.gz");
               ("KernelPackage", Template.VString "4.18.0-80.el8.x86_64");
               ("BuildModule", Template.VBool false);
               ("BuildProbe", Template.VBool true)])
       = (yum_rendered "/tmp/driver" "https://example.org/src.tar.gz"
            "4.18.0-80.el8.x86_64" "" "" false true, None).
Proof.
  destruct yum_sh_renders as (parsed & Hp & Hx).
  exists parsed. split; [exact Hp|].
  apply Hx; try reflexivity. discriminate.
Defined.

Lemma opensuse_sh_renders_witness :
  exists parsed,
    Template.Parse opensuse_sh = Ok parsed
    /\ Template.Execute parsed
         (fun name =>
            Template.lookup name
              [("DriverBuildDir", Template.VString "/tmp/driver");
               ("ModuleDownloadURL", Template.VString "https://example.org/src.tar.gz");
               ("KernelDownloadURLs",
                Template.VStrings ["https://example.org/a.rpm"; "https://example.org/b.rpm"]);
               ("ModuleDriverName", Template.VString "falco");
               ("GCCVersion", Template.VString "12");
               ("ModuleFullPath", Template.VString "/tmp/driver/build/driver/falco.ko");
               ("BuildModule", Template.VBool true);
               ("BuildProbe", Template.VBool false)])
       = (opensuse_rendered "/tmp/driver" "https://example.org/src.tar.gz"
            ["https://example.org/a.rpm"; "https://example.org/b.rpm"]
            "falco" "12" "/tmp/driver/build/driver/falco.ko" true false, None).
Proof.
  destruct opensuse_sh_renders as (parsed & Hp & Hx).
  exists parsed. split; [exact Hp|].
  apply Hx; try reflexivity. intros _. split; reflexivity.
Defined.
